(** * invoicer.py: invoice numbering and document composition

    A shallow embedding of [invoicer.py].  The file follows the script:
    the Python string primitives it calls, the exceptions it can end with,
    the pydantic records ([Settings], [InvoiceItem], [Invoice]), the
    numbering done by [Invoice.__init__] and [get_next_invoice_number],
    the flowables assembled by [output_pdf], and the rest of the script
    ([print_invoice], [read_settings], [read_template], [main]).

    Conventions.
    - A Python [str] is a [string]; one [ascii] stands for one code point
      below U+0100, so the digit and case tables below are the Unicode
      ones restricted to that range.  Literals in this file are ASCII.
    - A Python [int] is a [Z], a Python [float] is a binary64 [float].
    - [os.listdir(settings.output_directory)] is the argument [listing];
      its order is whatever the operating system gives, so nothing below
      assumes an order.  [os.path.exists] is the argument [dir_exists].
    - [print] output is modelled for [print_invoice] only; the message
      printed before [sys.exit(1)] is kept inside the exception.
    - The interpreter's limit on the number of digits accepted by [int]
      and [str] is not modelled: a file name is far shorter than it. *)

From Stdlib Require Import ZArith String Ascii Floats DecimalString DecimalPos DecimalZ Lia.
From stdpp Require Import gmap strings list.

Open Scope Z_scope.
Open Scope string_scope.

(** ** Python string primitives *)

Module Py.

(** Code point of a character. *)
Definition ord (c : ascii) : N := N_of_ascii c.

(** ASCII decimal digits, the only characters of the range that [int]
    accepts as digits. *)
Definition isdecimal_char (c : ascii) : bool :=
  ((48 <=? ord c) && (ord c <=? 57))%N.

(** [str.isdigit] on one character: Numeric_Type Decimal or Digit.  Below
    U+0100 these are 0-9 and the superscripts U+00B2, U+00B3, U+00B9. *)
Definition isdigit_char (c : ascii) : bool :=
  isdecimal_char c
  || (ord c =? 178)%N || (ord c =? 179)%N || (ord c =? 185)%N.

Fixpoint forallb_string (p : ascii → bool) (s : string) : bool :=
  match s with
  | EmptyString => true
  | String c s' => p c && forallb_string p s'
  end.

(** [s.isdigit()]: at least one character, and all of them digits. *)
Definition isdigit (s : string) : bool :=
  match s with
  | EmptyString => false
  | _ => forallb_string isdigit_char s
  end.

Definition isdecimal (s : string) : bool :=
  match s with
  | EmptyString => false
  | _ => forallb_string isdecimal_char s
  end.

(** [s.startswith(p)] *)
Definition startswith (s p : string) : bool := String.prefix p s.

(** [s.endswith(suffix)] *)
Definition endswith (s suffix : string) : bool :=
  let n := String.length s in
  let m := String.length suffix in
  (m <=? n)%nat && String.eqb (substring (n - m) m s) suffix.

(** [s.split(sep)] for a one-character separator. *)
Fixpoint split (sep : ascii) (s : string) : list string :=
  match s with
  | EmptyString => [EmptyString]
  | String c s' =>
      if Ascii.eqb c sep then EmptyString :: split sep s'
      else match split sep s' with
           | w :: ws => String c w :: ws
           | [] => [String c EmptyString]
           end
  end.

(** [l[0]] on the result of [split], which is never empty. *)
Definition first (l : list string) : string := hd EmptyString l.

(** [s.replace(old, new)] for one-character [old] and [new]. *)
Fixpoint replace (old new : ascii) (s : string) : string :=
  match s with
  | EmptyString => EmptyString
  | String c s' =>
      String (if Ascii.eqb c old then new else c) (replace old new s')
  end.

(** Characters below U+0100 that have a lowercase mapping: A-Z, and
    U+00C0..U+00DE without the multiplication sign U+00D7. *)
Definition has_lower (c : ascii) : bool :=
  (((65 <=? ord c) && (ord c <=? 90))
   || ((192 <=? ord c) && (ord c <=? 222) && negb (ord c =? 215)))%N.

Definition lower_char (c : ascii) : ascii :=
  if has_lower c then ascii_of_N (ord c + 32) else c.

(** [s.lower()] on code points below U+0100, where it maps one character
    to one character.  (Beyond that range it can change the length.) *)
Fixpoint lower (s : string) : string :=
  match s with
  | EmptyString => EmptyString
  | String c s' => String (lower_char c) (lower s')
  end.

(** [str(n)] for an [int]. *)
Definition str (n : Z) : string := NilZero.string_of_int (Z.to_int n).

Definition digit_value (c : ascii) : Z := Z.of_N (ord c - 48).

Fixpoint int_digits (acc : Z) (s : string) : Z :=
  match s with
  | EmptyString => acc
  | String c s' => int_digits (10 * acc + digit_value c) s'
  end.

End Py.

(** ** Exceptions and results *)

Inductive exn :=
| SystemExit (status : Z) (message : string)
| ValueError (literal : string)
| KeyError (key : string).

Inductive result (A : Type) :=
| Ok (a : A)
| Raise (e : exn).
Arguments Ok {A} a.
Arguments Raise {A} e.

#[global] Instance result_ret : MRet result := fun _ a => Ok a.
#[global] Instance result_bind : MBind result := fun _ _ f m =>
  match m with
  | Ok a => f a
  | Raise e => Raise e
  end.

(** A [for] loop whose body may raise: the state is threaded through the
    elements in order and the first exception ends the loop. *)
Fixpoint for_each {A S : Type} (body : S → A → result S) (l : list A) (s : S)
  : result S :=
  match l with
  | [] => Ok s
  | x :: l' => s' ← body s x; for_each body l' s'
  end.

(** [int(s)] as it is called by the script, on an [s] for which
    [s.isdigit()] holds: the value when every character is a decimal
    digit, [ValueError] for a digit that is not decimal.  On the strings of
    this file (code points below U+0100) the decimal digits are 0-9 and the
    other digits are the three superscripts; decimal digits of other
    scripts, which [int] also accepts, are outside this alphabet. *)
Definition int (s : string) : result Z :=
  if Py.isdecimal s then Ok (Py.int_digits 0 s) else Raise (ValueError s).

(** The two ways the script stops by itself ([DuplicateInvoiceNumber] and
    the missing directory), and the failed dictionary lookup
    ([UnknownCurrency]). *)
Definition DuplicateInvoiceNumber (n : Z) : exn :=
  SystemExit 1 ("Error: file with invoice number " ++ Py.str n ++ " already exists").

Definition MissingOutputDirectory (d : string) : exn :=
  SystemExit 1 ("Error: output directory " ++ d ++ " does not exist").

Definition UnknownCurrency (k : string) : exn := KeyError k.

(** ** Records *)

Record Settings := {
  output_directory : string;
  invoice_header : list string;
  invoice_footer : list string;
  payment_instructions : gmap string string
}.

Record InvoiceItem := {
  description : string;
  quantity : float;
  unit_price : float
}.

Record Invoice := {
  customer_name : string;
  customer_address1 : string;
  customer_address2 : string;
  customer_business_number : string;
  invoice_number : Z;
  invoice_currency : string;
  invoice_date : string;
  invoice_items : list InvoiceItem;
  invoice_total_price : float
}.

Definition set_invoice_date (d : string) (i : Invoice) : Invoice :=
  {| customer_name := customer_name i;
     customer_address1 := customer_address1 i;
     customer_address2 := customer_address2 i;
     customer_business_number := customer_business_number i;
     invoice_number := invoice_number i;
     invoice_currency := invoice_currency i;
     invoice_date := d;
     invoice_items := invoice_items i;
     invoice_total_price := invoice_total_price i |}.

Definition set_invoice_number (n : Z) (i : Invoice) : Invoice :=
  {| customer_name := customer_name i;
     customer_address1 := customer_address1 i;
     customer_address2 := customer_address2 i;
     customer_business_number := customer_business_number i;
     invoice_number := n;
     invoice_currency := invoice_currency i;
     invoice_date := invoice_date i;
     invoice_items := invoice_items i;
     invoice_total_price := invoice_total_price i |}.

(** ** Numbering: [Invoice.__init__] and [get_next_invoice_number] *)

(** The test of line 89: the entry ends in [.pdf] and the part before its
    first underscore is all digits. *)
Definition counted (file : string) : bool :=
  Py.endswith file ".pdf" && Py.isdigit (Py.first (Py.split "_" file)).

(** Body of the loop of [get_next_invoice_number]. *)
Definition next_number_step (invoice_number : Z) (file : string) : result Z :=
  if counted file then
    file_invoice_number ← int (Py.first (Py.split "_" file));
    if (file_invoice_number >=? invoice_number)%Z
    then Ok (file_invoice_number + 1)
    else Ok invoice_number
  else Ok invoice_number.

Definition get_next_invoice_number (listing : list string) : result Z :=
  for_each next_number_step listing 1.

(** Body of the loop of lines 71-74. *)
Definition duplicate_step (n : Z) (_ : unit) (file : string) : result unit :=
  if Py.startswith file (Py.str n)
  then Raise (DuplicateInvoiceNumber n)
  else Ok tt.

(** [Invoice.__init__] after pydantic has validated the fields into [self].
    [now] is the current date as formatted by [strftime]. *)
Definition __init__ (now : string) (listing : list string) (self : Invoice)
  : result Invoice :=
  let self :=
    if String.eqb (invoice_date self) "" then set_invoice_date now self
    else self in
  _ ← (if (invoice_number self =? 0)%Z then Ok tt
       else for_each (duplicate_step (invoice_number self)) listing tt);
  if (invoice_number self =? 0)%Z then
    n ← get_next_invoice_number listing;
    Ok (set_invoice_number n self)
  else Ok self.

(** ** Flowables handed to the document template *)

Inductive color := black | lightgrey.

Definition coord : Type := Z * Z.

(** The [TableStyle] commands the script uses. *)
Inductive style_command :=
| TEXTCOLOR (start stop : coord) (c : color)
| FONTNAME (start stop : coord) (font : string)
| FONTSIZE (start stop : coord) (size : Z)
| BOTTOMPADDING (start stop : coord) (pad : Z)
| TOPPADDING (start stop : coord) (pad : Z)
| BACKGROUND (start stop : coord) (c : color)
| ALIGN (start stop : coord) (a : string)
| VALIGN (start stop : coord) (a : string)
| INNERGRID (start stop : coord) (weight : float) (c : color)
| BOX (start stop : coord) (weight : float) (c : color).

(** [Table(data, colWidths, rowHeights, repeatRows)] followed by
    [setStyle], and [Spacer(width, height)].  A cell holds a string, a
    number or another flowable.  Both are kept as the data given to the
    library; of what the library does with them only the refusal of an
    empty table ([make_Table] below) is modelled. *)
Inductive cell :=
| CStr (s : string)
| CInt (n : Z)
| CFloat (x : float)
| CFlowable (f : flowable)
with flowable :=
| Table (data : list (list cell)) (colWidths : option (list Z))
        (rowHeights : option Z) (repeatRows : Z) (style : list style_command)
| Spacer (width height : Z).

(** The [ValueError] with which the library's [Table] refuses data without
    a row or without a column (its default [emptyTableAction]); the text
    is the library's, without the object name it starts with. *)
Definition EmptyTable : exn :=
  ValueError "must have at least a row and column".

(** Number of columns the library finds: the longest row or, for data
    without rows, the number of column widths given. *)
Definition table_columns (data : list (list cell))
  (colWidths : option (list Z)) : nat :=
  match data with
  | [] => match colWidths with Some widths => length widths | None => 0%nat end
  | _ => foldr (fun row n => Nat.max (length row) n) 0%nat data
  end.

(** [Table(data, colWidths, rowHeights, repeatRows)] as the library builds
    it, then [setStyle]: [ValueError] when there is no row or no column. *)
Definition make_Table (data : list (list cell)) (colWidths : option (list Z))
  (rowHeights : option Z) (repeatRows : Z) (style : list style_command)
  : result flowable :=
  if (length data =? 0)%nat || (table_columns data colWidths =? 0)%nat
  then Raise EmptyTable
  else Ok (Table data colWidths rowHeights repeatRows style).

Inductive pagesize := letter.

(** [SimpleDocTemplate(filename, pagesize)] and the story given to its
    [build]: the one artifact a run produces. *)
Record document := {
  filename : string;
  page : pagesize;
  story : list flowable
}.

(** ** Totals and the output file name *)

Definition calculate_total_price (invoice : Invoice) : float :=
  fold_left (fun total_price item =>
               (total_price + unit_price item * quantity item)%float)
            (invoice_items invoice) 0%float.

(** Lines 166-172. *)
Definition pdf_file_name (invoice : Invoice) (settings : Settings) : string :=
  let invoice_number := invoice_number invoice in
  let customer_name := Py.lower (Py.replace " " "_" (customer_name invoice)) in
  output_directory settings ++ "/" ++ Py.str invoice_number ++ "_"
    ++ customer_name ++ ".pdf".

(** ** Definitions that follow the specification's wording *)

(** Leading token of a ledger entry and the integer it denotes. *)
Definition leading_token (file : string) : string :=
  Py.first (Py.split "_" file).

Definition leading_number (file : string) : Z :=
  Py.int_digits 0 (leading_token file).

(** Maximum of the leading numbers of the counted entries, 0 by default. *)
Definition max_existing (listing : list string) : Z :=
  foldr Z.max 0 (map leading_number (List.filter counted listing)).

(** Every counted entry has a leading token made of decimal digits only. *)
Definition decimal_ledger (listing : list string) : Prop :=
  ∀ file, In file listing → counted file = true →
          Py.isdecimal (leading_token file) = true.

(** An entry collides with [n] when it starts with [str(n)]. *)
Definition collides (n : Z) (file : string) : bool :=
  Py.startswith file (Py.str n).

(** Derived quantities of the data model. *)
Definition line_total (item : InvoiceItem) : float :=
  (quantity item * unit_price item)%float.

Definition sum_line_totals (items : list InvoiceItem) : float :=
  fold_left (fun acc item => (acc + line_total item)%float) items 0%float.

(** Customer name as it appears in the artifact name: lowercased, then
    spaces replaced by underscores. *)
Definition customer_name_normalized (name : string) : string :=
  Py.replace " " "_" (Py.lower name).

Definition set_invoice_total_price (x : float) (i : Invoice) : Invoice :=
  {| customer_name := customer_name i;
     customer_address1 := customer_address1 i;
     customer_address2 := customer_address2 i;
     customer_business_number := customer_business_number i;
     invoice_number := invoice_number i;
     invoice_currency := invoice_currency i;
     invoice_date := invoice_date i;
     invoice_items := invoice_items i;
     invoice_total_price := x |}.

(** The record after the date default of lines 66-67. *)
Definition default_date (now : string) (self : Invoice) : Invoice :=
  if String.eqb (invoice_date self) "" then set_invoice_date now self else self.

(** ** [output_pdf] *)

Section Composer.

(** Conversion of a float inside an f-string, and [textwrap.fill]: both
    belong to the Python library and are taken as given. *)
Variable float_str : float → string.
Variable textwrap_fill : string → Z → string.

(** Lines 230-240. *)
Definition items_data (invoice : Invoice) : list (list cell) :=
  let items_data :=
    [[CStr "Description"; CStr "Quantity"; CStr "Unit Price"; CStr "Total Price"]] in
  let items_data :=
    fold_left (fun items_data item =>
                 let description := textwrap_fill (description item) 40 in
                 let total_price := (unit_price item * quantity item)%float in
                 (items_data ++ [[CStr description; CFloat (quantity item);
                                  CFloat (unit_price item); CFloat total_price]])%list)
              (invoice_items invoice) items_data in
  (items_data ++
     [[CStr ("Tot (" ++ invoice_currency invoice ++ "):"); CStr ""; CStr "";
       CStr (float_str (calculate_total_price invoice) ++ " "
             ++ invoice_currency invoice)]])%list.

(** Lines 176-299: the story.  It is not built when a table is refused
    by the library (no header line at line 180, no footer line at line
    290) or when the lookup of line 271 fails; the steps are in the order
    of the script.  Nothing here reads the file system or the clock. *)
Definition elements (invoice : Invoice) (settings : Settings)
  : result (list flowable) :=
  let invoice_number := invoice_number invoice in
  let elements := [] in
  let header_data := map (fun header_text => [CStr header_text])
                         (invoice_header settings) in
  header_table ←
    make_Table header_data None None 0
      [FONTNAME (0, 0) (-1, 0) "Helvetica-Bold"];
  let customer_data :=
    [[CStr (customer_name invoice)];
     [CStr (customer_address1 invoice)];
     [CStr (customer_address2 invoice)];
     [CStr (customer_business_number invoice)];
     []; []; []] in
  customer_table ←
    make_Table customer_data None None 0
      [FONTNAME (0, 0) (-1, 0) "Helvetica-Bold"];
  combined_table ←
    make_Table [[CFlowable header_table; CFlowable customer_table]]
      (Some [265; 300]) None 0 [];
  let elements := (elements ++ [combined_table])%list in
  let elements := (elements ++ [Spacer 1 24])%list in
  let invoice_data :=
    [[CStr "Invoice Date:"; CStr (invoice_date invoice)];
     [CStr "Invoice Number:"; CInt invoice_number]] in
  details_table ←
    make_Table invoice_data (Some [240; 300]) None 0
      [TEXTCOLOR (0, 0) (-1, -1) black;
       FONTNAME (0, 0) (-1, -1) "Helvetica";
       FONTSIZE (0, 0) (-1, -1) 12;
       BOTTOMPADDING (0, 0) (-1, -1) 5;
       TOPPADDING (0, 0) (-1, -1) 5;
       BACKGROUND (0, 0) (-1, -1) lightgrey];
  let elements := (elements ++ [details_table])%list in
  let elements := (elements ++ [Spacer 1 24])%list in
  items_table ←
    make_Table (items_data invoice) (Some [250; 90; 100; 100]) None 1
      [TEXTCOLOR (0, 0) (-1, -1) black;
       FONTNAME (0, 0) (-1, -1) "Helvetica";
       FONTSIZE (0, 0) (-1, -1) 10;
       ALIGN (0, 0) (0, 0) "LEFT";
       BOTTOMPADDING (0, 0) (-1, -1) 5;
       TOPPADDING (0, 0) (-1, -1) 5;
       INNERGRID (0, 0) (-1, -1) 0.25%float black;
       BOX (0, 0) (-1, -1) 0.25%float black;
       BACKGROUND (0, 0) (-1, 0) lightgrey;
       FONTNAME (0, -1) (-1, -1) "Helvetica-Bold";
       FONTNAME (0, 0) (-1, 0) "Helvetica-Bold"];
  let elements := (elements ++ [items_table])%list in
  let elements := (elements ++ [Spacer 1 12])%list in
  let payment_data := [] in
  match payment_instructions settings !! Py.lower (invoice_currency invoice) with
  | None => Raise (KeyError (Py.lower (invoice_currency invoice)))
  | Some payment_instructions =>
      let payment_data := (payment_data ++ [[CStr payment_instructions]])%list in
      payment_table ←
        make_Table payment_data (Some [550]) None 0
          [TEXTCOLOR (0, 0) (-1, -1) black;
           FONTNAME (0, 0) (-1, -1) "Helvetica-Bold";
           FONTSIZE (0, 0) (-1, -1) 10;
           ALIGN (0, 0) (0, 0) "LEFT";
           VALIGN (0, 0) (0, 0) "MIDDLE";
           TOPPADDING (0, 0) (-1, -1) 5];
      let elements := (elements ++ [payment_table])%list in
      let elements := (elements ++ [Spacer 1 12])%list in
      let footer_data := map (fun footer_text => [CStr footer_text])
                             (invoice_footer settings) in
      footer_table ←
        make_Table footer_data (Some [550]) (Some 20) 0
          [TEXTCOLOR (0, 0) (-1, -1) black;
           FONTNAME (0, 0) (-1, -1) "Helvetica-Bold";
           FONTSIZE (0, 0) (-1, -1) 10;
           ALIGN (0, 0) (0, 0) "LEFT";
           VALIGN (0, 0) (0, 0) "MIDDLE";
           TOPPADDING (0, 0) (-1, -1) 5];
      let elements := (elements ++ [footer_table])%list in
      Ok elements
  end.

(** [output_pdf]: the directory test of line 159, the document template
    of line 175, the story, and the [build] of line 302, which is the only
    place where a file is written.  The result is the document built. *)
Definition output_pdf (dir_exists : bool) (invoice : Invoice)
  (settings : Settings) : result document :=
  if negb dir_exists
  then Raise (MissingOutputDirectory (output_directory settings))
  else
    let doc_filename := pdf_file_name invoice settings in
    elements ← elements invoice settings;
    Ok {| filename := doc_filename; page := letter; story := elements |}.

(** The three kinds of rows of the line-items block, in the
    specification's words. *)
Definition header_row : list cell :=
  [CStr "Description"; CStr "Quantity"; CStr "Unit Price"; CStr "Total Price"].

Definition item_row (item : InvoiceItem) : list cell :=
  [CStr (textwrap_fill (description item) 40); CFloat (quantity item);
   CFloat (unit_price item); CFloat (line_total item)].

Definition total_row (currency : string) (items : list InvoiceItem)
  : list cell :=
  [CStr ("Tot (" ++ currency ++ "):"); CStr ""; CStr "";
   CStr (float_str (sum_line_totals items) ++ " " ++ currency)].

End Composer.

(** ** The rest of the script: [print_invoice], [read_settings],
    [read_template], [main] *)

(** The entry under which the artifact of [output_pdf] appears in the
    output directory: [pdf_file_name] without the directory and the slash.
    (A customer name holding a slash would put the file one level deeper;
    such names are outside the statements that use this definition.) *)
Definition artifact_entry (invoice : Invoice) : string :=
  Py.str (invoice_number invoice) ++ "_"
    ++ Py.lower (Py.replace " " "_" (customer_name invoice)) ++ ".pdf".

Definition TemplateNotFound (template_file : string) : exn :=
  SystemExit 1 ("Error: template file " ++ template_file ++ " does not exist").

(** [read_settings], from the point where the YAML file has been loaded
    and validated into [loaded]: lines 105-110. *)
Definition read_settings (loaded : Settings) (dir_exists : bool)
  : result Settings :=
  if negb dir_exists
  then Raise (MissingOutputDirectory (output_directory loaded))
  else Ok loaded.

(** [read_template]: the existence test of line 115, then the construction
    of line 123 on the fields [loaded] read from the YAML file. *)
Definition read_template (template_file : string) (template_exists : bool)
  (now : string) (listing : list string) (loaded : Invoice) : result Invoice :=
  if negb template_exists then Raise (TemplateNotFound template_file)
  else __init__ now listing loaded.

Section Script.

Variable float_str : float → string.
Variable textwrap_fill : string → Z → string.

(** [print_invoice]: the strings given to [print], one per call.  [str] of
    a float and a float inside an f-string are the same conversion. *)
Definition print_invoice (invoice : Invoice) : list string :=
  let printed :=
    ["Invoice";
     "-------";
     "Customer Name: " ++ customer_name invoice;
     "Customer Address1: " ++ customer_address1 invoice;
     "Customer Address2: " ++ customer_address2 invoice;
     "Customer Business Number: " ++ customer_business_number invoice;
     "Invoice Number: " ++ Py.str (invoice_number invoice);
     "Invoice Currency: " ++ invoice_currency invoice;
     "Invoice Date: " ++ invoice_date invoice;
     "Invoice Items:"] in
  let printed :=
    fold_left
      (fun printed item =>
         app printed
           [String "009" "Description: " ++ description item;
            String "009" "Quantity: " ++ float_str (quantity item);
            String "009" "Unit Price: " ++ float_str (unit_price item);
            String "009" "Total Price: "
              ++ float_str (unit_price item * quantity item)%float])
      (invoice_items invoice) printed in
  app printed
    ["Invoice Total Price: " ++ float_str (calculate_total_price invoice);
     "-------"].

(** What one run is given: the command-line argument, the answers of
    [os.path.exists] for the template and for the output directory, the
    two YAML files once loaded and validated, the date and the listing of
    the output directory.  Runs in which a file cannot be opened or does
    not validate are not described. *)
Record run := {
  template_file : string;
  template_exists : bool;
  loaded_settings : Settings;
  directory_exists : bool;
  loaded_template : Invoice;
  today : string;
  directory_listing : list string
}.

(** [main]: what was printed by [print_invoice] and the document built. *)
Definition main (r : run) : result (list string * document) :=
  if negb (template_exists r) then Raise (TemplateNotFound (template_file r))
  else
    settings ← read_settings (loaded_settings r) (directory_exists r);
    invoice ← read_template (template_file r) (template_exists r) (today r)
                (directory_listing r) (loaded_template r);
    let printed := print_invoice invoice in
    built ← output_pdf float_str textwrap_fill (directory_exists r) invoice settings;
    Ok (printed, built).

(** The same run seen from outside: what [print_invoice] has printed when
    the run ends, and how it ends. *)
Definition main_output (r : run) : list string * result document :=
  if negb (template_exists r)
  then ([], Raise (TemplateNotFound (template_file r)))
  else
    match read_settings (loaded_settings r) (directory_exists r) with
    | Raise e => ([], Raise e)
    | Ok settings =>
        match read_template (template_file r) (template_exists r) (today r)
                (directory_listing r) (loaded_template r) with
        | Raise e => ([], Raise e)
        | Ok invoice =>
            (print_invoice invoice,
             output_pdf float_str textwrap_fill (directory_exists r)
               invoice settings)
        end
    end.

End Script.

(** ** Sample data *)

Definition blank (n : Z) : Invoice :=
  {| customer_name := "Acme Corp";
     customer_address1 := "1 Main Street";
     customer_address2 := "Springfield";
     customer_business_number := "IT0001";
     invoice_number := n;
     invoice_currency := "EUR";
     invoice_date := "01/02/2024";
     invoice_items :=
       [{| description := "Consulting"; quantity := 2%float;
           unit_price := 100%float |}];
     invoice_total_price := 0%float |}.

Definition sample_settings : Settings :=
  {| output_directory := "out";
     invoice_header := ["My Company"; "Some Road 1"];
     invoice_footer := ["Thank you"];
     payment_instructions :=
       <["eur" := "IT00 0000 0000 0000 0000 00"]>
         (<["chf" := "CH00 0000 0000 0000 0000 0"]> ∅) |}.

(** Sample stand-ins for the two library functions: the conversion of the
    one float the sample invoice prints, and [textwrap.fill] on a
    description shorter than the width, which it returns unchanged. *)
Definition sample_float_str (x : float) : string :=
  if PrimFloat.eqb x 200 then "200.0" else "nan".

Definition sample_textwrap_fill (text : string) (width : Z) : string := text.

(** The document built for the sample invoice. *)
Definition sample_story : list flowable :=
  match elements sample_float_str sample_textwrap_fill (blank 1) sample_settings with
  | Ok blocks => blocks
  | Raise _ => []
  end.

Definition sample_document : document :=
  {| filename := pdf_file_name (blank 1) sample_settings;
     page := letter;
     story := sample_story |}.

(** An invoice without items, and one whole run: template and directory
    present, no number requested, one invoice already in the ledger. *)
Definition no_items : Invoice :=
  {| customer_name := "Acme Corp";
     customer_address1 := "1 Main Street";
     customer_address2 := "Springfield";
     customer_business_number := "IT0001";
     invoice_number := 1;
     invoice_currency := "EUR";
     invoice_date := "01/02/2024";
     invoice_items := [];
     invoice_total_price := 0%float |}.

Definition sample_run : run :=
  {| template_file := "acme.yml";
     template_exists := true;
     loaded_settings := sample_settings;
     directory_exists := true;
     loaded_template := blank 0;
     today := "01/02/2024";
     directory_listing := ["3_acme.pdf"] |}.

Definition built_for (invoice : Invoice) : document :=
  {| filename := pdf_file_name invoice sample_settings;
     page := letter;
     story :=
       match elements sample_float_str sample_textwrap_fill invoice sample_settings with
       | Ok blocks => blocks
       | Raise _ => []
       end |}.

(** A file name whose leading token is the superscript two, U+00B2. *)
Definition superscript_entry : string := String "178"%char "_a.pdf".

(** ** The loops *)

Ltac run := unfold mret, result_ret, mbind, result_bind; simpl.

#[local] Arguments duplicate_step : simpl never.
#[local] Arguments next_number_step : simpl never.
#[local] Arguments counted : simpl never.

Lemma duplicate_step_eq (n : Z) (file : string) :
  duplicate_step n tt file =
  if collides n file then Raise (DuplicateInvoiceNumber n) else Ok tt.
Proof. reflexivity. Qed.

Lemma duplicate_scan_ok (n : Z) (listing : list string) :
  for_each (duplicate_step n) listing tt = Ok tt ↔
  ∀ file, In file listing → collides n file = false.
Proof.
  induction listing as [|f l IH]; simpl.
  - split; [intros _ file [] | reflexivity].
  - rewrite duplicate_step_eq. run.
    destruct (collides n f) eqn:E.
    + split; [intros [=]|].
      intros H. rewrite (H f) in E by auto. discriminate.
    + rewrite IH. split.
      * intros H file [<-|Hin]; auto.
      * intros H file Hin. apply H. auto.
Qed.

Lemma duplicate_scan_raise (n : Z) (listing : list string) (e : exn) :
  for_each (duplicate_step n) listing tt = Raise e ↔
  e = DuplicateInvoiceNumber n ∧ ∃ file, In file listing ∧ collides n file = true.
Proof.
  induction listing as [|f l IH]; simpl.
  - split; [intros [=] | intros [_ (file & [] & _)]].
  - rewrite duplicate_step_eq. run.
    destruct (collides n f) eqn:E.
    + split.
      * intros [= <-]. split; [reflexivity|]. exists f. auto.
      * intros [-> _]. reflexivity.
    + rewrite IH. split.
      * intros [-> (file & Hin & Hc)]. split; [reflexivity|]. exists file. auto.
      * intros [-> (file & [<-|Hin] & Hc)]; [congruence|].
        split; [reflexivity|]. exists file. auto.
Qed.

Lemma next_number_step_max (a : Z) (file : string) :
  next_number_step a file =
  if counted file then
    if Py.isdecimal (leading_token file)
    then Ok (Z.max a (leading_number file + 1))
    else Raise (ValueError (leading_token file))
  else Ok a.
Proof.
  unfold next_number_step, int, leading_number, leading_token.
  destruct (counted file); [|reflexivity].
  destruct (Py.isdecimal _); run; [|reflexivity].
  destruct (Z.geb_spec (Py.int_digits 0 (Py.first (Py.split "_" file))) a);
    f_equal; lia.
Qed.

Lemma scan_lower_bound (l : list string) (a m : Z) :
  for_each next_number_step l a = Ok m → (a <= m)%Z.
Proof.
  revert a. induction l as [|f l IH]; intros a; simpl.
  - intros [= <-]. lia.
  - rewrite next_number_step_max.
    destruct (counted f); [destruct (Py.isdecimal _)|]; run;
      try (intros [=]; fail); intros H%IH; lia.
Qed.

Lemma scan_filter (l : list string) (a : Z) :
  for_each next_number_step l a =
  for_each next_number_step (List.filter counted l) a.
Proof.
  revert a. induction l as [|f l IH]; intros a; simpl; [reflexivity|].
  destruct (counted f) eqn:E; simpl.
  - destruct (next_number_step a f); run; auto.
  - rewrite next_number_step_max, E. run. apply IH.
Qed.

Lemma max_existing_nonneg (listing : list string) :
  (0 <= max_existing listing)%Z.
Proof.
  unfold max_existing.
  induction (map leading_number (List.filter counted listing)); simpl; lia.
Qed.

Lemma scan_max (l : list string) (a : Z) :
  decimal_ledger l → (1 <= a)%Z →
  for_each next_number_step l a = Ok (Z.max a (max_existing l + 1)).
Proof.
  revert a. induction l as [|f l IH]; intros a Hdec Ha; simpl.
  - f_equal. unfold max_existing. simpl. lia.
  - assert (Hl : decimal_ledger l) by (intros g Hg; apply Hdec; right; exact Hg).
    rewrite next_number_step_max. unfold max_existing. simpl.
    destruct (counted f) eqn:E; simpl.
    + rewrite (Hdec f (or_introl eq_refl) E). run.
      rewrite IH by (auto; lia). f_equal. unfold max_existing. lia.
    + run. apply IH; assumption.
Qed.

(** On a ledger whose counted entries all carry decimal leading tokens, the
    next number is the largest leading number plus one. *)
Lemma get_next_invoice_number_decimal (listing : list string) :
  decimal_ledger listing →
  get_next_invoice_number listing = Ok (max_existing listing + 1).
Proof.
  intros H. unfold get_next_invoice_number. rewrite scan_max by (auto; lia).
  pose proof (max_existing_nonneg listing). f_equal. lia.
Qed.

Example next_number_empty : get_next_invoice_number [] = Ok 1.
Proof. reflexivity. Qed.

Example next_number_3_1_7 :
  get_next_invoice_number ["3_acme.pdf"; "1_acme.pdf"; "7_globex.pdf"] = Ok 8.
Proof. reflexivity. Qed.

(** ** [Invoice.__init__] by cases on the requested number *)

Lemma default_date_number (now : string) (self : Invoice) :
  invoice_number (default_date now self) = invoice_number self.
Proof. unfold default_date. destruct (String.eqb _ _); reflexivity. Qed.

Lemma init_requested (now : string) (listing : list string) (self : Invoice) :
  invoice_number self ≠ 0 →
  __init__ now listing self =
  match for_each (duplicate_step (invoice_number self)) listing tt with
  | Ok _ => Ok (default_date now self)
  | Raise e => Raise e
  end.
Proof.
  intros Hn. unfold __init__. fold (default_date now self).
  rewrite default_date_number.
  destruct (Z.eqb_spec (invoice_number self) 0) as [E|_]; [contradiction|].
  run. destruct (for_each _ _ _); reflexivity.
Qed.

Lemma init_pending (now : string) (listing : list string) (self : Invoice) :
  invoice_number self = 0 →
  __init__ now listing self =
  match get_next_invoice_number listing with
  | Ok n => Ok (set_invoice_number n (default_date now self))
  | Raise e => Raise e
  end.
Proof.
  intros Hn. unfold __init__. fold (default_date now self).
  rewrite default_date_number, Hn. run. reflexivity.
Qed.

(** ** Claims about numbering *)

(** C1.  The claim says that, with no number requested, every ledger gives
    the largest leading number plus one (1 when there is none).  The code
    does so on ledgers with decimal leading tokens
    ([get_next_invoice_number_decimal]), but it stops with [ValueError] on
    the ledger holding the single entry [superscript_entry]: [isdigit]
    accepts the superscript two, so the entry is counted, and [int] rejects
    it. *)
Theorem next_number_raises_on_superscript_digit :
  counted superscript_entry = true ∧
  get_next_invoice_number [superscript_entry]
    = Raise (ValueError (leading_token superscript_entry)) ∧
  __init__ "01/02/2024" [superscript_entry] (blank 0)
    = Raise (ValueError (leading_token superscript_entry)).
Proof. repeat split; vm_compute; reflexivity. Qed.

(** C2.  For a requested non-zero number [n], construction stops with
    [DuplicateInvoiceNumber] exactly when some entry of the ledger starts
    with [str(n)], and it cannot stop in any other way; the test is a string
    prefix test, so a request for 1 is rejected by any entry that starts
    with [10_]. *)
Theorem duplicate_iff_prefix (now : string) (listing : list string)
  (self : Invoice) :
  invoice_number self ≠ 0 →
  (__init__ now listing self = Raise (DuplicateInvoiceNumber (invoice_number self))
   ↔ ∃ file, In file listing
             ∧ Py.startswith file (Py.str (invoice_number self)) = true)
  ∧ (∀ e, __init__ now listing self = Raise e →
          e = DuplicateInvoiceNumber (invoice_number self))
  ∧ (invoice_number self = 1 →
     ∀ rest, In ("10_" ++ rest) listing →
             __init__ now listing self = Raise (DuplicateInvoiceNumber 1)).
Proof.
  intros Hn. rewrite (init_requested _ _ _ Hn).
  destruct (for_each (duplicate_step (invoice_number self)) listing tt)
    as [[]|e0] eqn:E.
  - pose proof (proj1 (duplicate_scan_ok _ _) E) as Hfree.
    unfold collides in Hfree. repeat split.
    + intros [=].
    + intros (file & Hin & Hc). rewrite (Hfree _ Hin) in Hc. discriminate.
    + intros e [=].
    + intros H1 rest Hin. rewrite H1 in Hfree.
      specialize (Hfree _ Hin). discriminate.
  - apply duplicate_scan_raise in E as [-> (file & Hin & Hc)].
    unfold collides in Hc. repeat split.
    + intros _. exists file. auto.
    + intros e [= <-]. reflexivity.
    + intros H1 rest _. rewrite H1. reflexivity.
Qed.

Lemma duplicate_iff_prefix_witness :
  __init__ "01/02/2024" ["10_acme.pdf"] (blank 1)
  = Raise (DuplicateInvoiceNumber 1).
Proof.
  destruct (duplicate_iff_prefix "01/02/2024" ["10_acme.pdf"] (blank 1))
    as (_ & _ & H); [discriminate|].
  apply (H eq_refl "acme.pdf"). left. reflexivity.
Defined.

(** C5.  A requested non-zero number that no entry of the ledger collides
    with is kept: construction succeeds and the record carries exactly the
    requested number. *)
Theorem requested_number_kept (now : string) (listing : list string)
  (self : Invoice) :
  invoice_number self ≠ 0 →
  (∀ file, In file listing →
           Py.startswith file (Py.str (invoice_number self)) = false) →
  ∃ self', __init__ now listing self = Ok self'
           ∧ invoice_number self' = invoice_number self
           ∧ self' = default_date now self.
Proof.
  intros Hn Hfree. exists (default_date now self).
  rewrite (init_requested _ _ _ Hn).
  assert (H : for_each (duplicate_step (invoice_number self)) listing tt = Ok tt)
    by (apply duplicate_scan_ok; exact Hfree).
  rewrite H. auto using default_date_number.
Qed.

Lemma requested_number_kept_witness :
  ∃ self', __init__ "01/02/2024" ["3_acme.pdf"; "notes.txt"] (blank 5) = Ok self'
           ∧ invoice_number self' = 5
           ∧ self' = default_date "01/02/2024" (blank 5).
Proof.
  apply (requested_number_kept "01/02/2024" ["3_acme.pdf"; "notes.txt"] (blank 5)).
  - discriminate.
  - intros file [<-|[<-|[]]]; reflexivity.
Defined.

(** C9, as the claim states it, fails: a negative requested number that
    collides with nothing is kept, so a constructed record can carry a
    number below 1. *)
Lemma negative_number_survives :
  __init__ "01/02/2024" ["3_acme.pdf"] (blank (-5)) = Ok (blank (-5))
  ∧ ¬ (1 <= invoice_number (blank (-5)))%Z.
Proof. split; [reflexivity | simpl; lia]. Qed.

(** C9, amended.  A record that survives construction never has number 0;
    its number is at least 1 whenever the supplied number was not negative
    (0 or absent is replaced by the next number, which is at least 1), and
    a supplied non-zero number, negative ones included, is kept as it is. *)
Theorem constructed_number_not_pending (now : string)
  (listing : list string) (self self' : Invoice) :
  __init__ now listing self = Ok self' →
  invoice_number self' ≠ 0
  ∧ ((0 <= invoice_number self)%Z → (1 <= invoice_number self')%Z)
  ∧ (invoice_number self ≠ 0 → invoice_number self' = invoice_number self).
Proof.
  destruct (Z.eq_dec (invoice_number self) 0) as [E|E].
  - rewrite (init_pending _ _ _ E).
    destruct (get_next_invoice_number listing) as [n|e] eqn:G; [|intros [=]].
    intros [= <-]. apply scan_lower_bound in G. simpl.
    repeat split; intros; lia.
  - rewrite (init_requested _ _ _ E).
    destruct (for_each _ _ _); [|intros [=]].
    intros [= <-]. rewrite default_date_number.
    repeat split; auto; lia.
Qed.

Lemma constructed_number_not_pending_witness :
  invoice_number (set_invoice_number 4 (blank 0)) ≠ 0
  ∧ ((0 <= invoice_number (blank 0))%Z →
     (1 <= invoice_number (set_invoice_number 4 (blank 0)))%Z)
  ∧ (invoice_number (blank 0) ≠ 0 →
     invoice_number (set_invoice_number 4 (blank 0)) = invoice_number (blank 0)).
Proof.
  apply (constructed_number_not_pending "01/02/2024"
           ["3_acme.pdf"; "1_acme.pdf"] (blank 0)).
  reflexivity.
Defined.

(** C10.  The two scans filter the ledger differently.  The duplicate test
    rejects [n] as soon as any entry starts with [str(n)], whatever its
    extension or separator ([5notes.txt] collides with 5); the next-number
    scan ignores every entry that does not end in [.pdf] or whose part
    before the first underscore is not all digits.  So there is a ledger on
    which a requested [n] is rejected although the next number computed on
    the same ledger is not above [n]. *)
Theorem scans_filter_differently :
  (∀ now listing self file,
     invoice_number self ≠ 0 → In file listing →
     Py.startswith file (Py.str (invoice_number self)) = true →
     __init__ now listing self
       = Raise (DuplicateInvoiceNumber (invoice_number self)))
  ∧ (∀ listing,
       get_next_invoice_number listing
       = get_next_invoice_number (List.filter counted listing))
  ∧ (∀ file, counted file
             = Py.endswith file ".pdf"
               && Py.isdigit (Py.first (Py.split "_" file)))
  ∧ collides 5 "5notes.txt" = true
  ∧ counted "5notes.txt" = false
  ∧ ∃ listing n m,
      n ≠ 0
      ∧ __init__ "01/02/2024" listing (blank n)
        = Raise (DuplicateInvoiceNumber n)
      ∧ get_next_invoice_number listing = Ok m
      ∧ (m <= n)%Z.
Proof.
  split; [|split; [|split; [|split; [|split]]]].
  - intros now listing self file Hn Hin Hc.
    rewrite (init_requested _ _ _ Hn).
    assert (H : for_each (duplicate_step (invoice_number self)) listing tt
                = Raise (DuplicateInvoiceNumber (invoice_number self))).
    { apply duplicate_scan_raise. split; [reflexivity|]. exists file. auto. }
    rewrite H. reflexivity.
  - intros listing. apply scan_filter.
  - reflexivity.
  - reflexivity.
  - reflexivity.
  - exists ["5notes.txt"], 5, 1. repeat split; [discriminate | lia].
Qed.

Lemma scans_filter_differently_witness :
  __init__ "01/02/2024" ["1_acme.pdf"; "5notes.txt"] (blank 5)
  = Raise (DuplicateInvoiceNumber 5)
  ∧ get_next_invoice_number ["1_acme.pdf"; "5notes.txt"] = Ok 2.
Proof.
  split.
  - apply (proj1 scans_filter_differently "01/02/2024"
             ["1_acme.pdf"; "5notes.txt"] (blank 5) "5notes.txt").
    + discriminate.
    + right. left. reflexivity.
    + reflexivity.
  - rewrite (proj1 (proj2 scans_filter_differently)). reflexivity.
Defined.

(** ** Arithmetic and string facts used by the composer *)

(** Binary64 multiplication is commutative, so the product written
    [unit_price * quantity] in the script is the [line_total] of the data
    model. *)
Lemma float_mul_comm (x y : float) : (x * y)%float = (y * x)%float.
Proof.
  apply Prim2SF_inj. rewrite !mul_spec.
  destruct (Prim2SF x) as [sx|sx| |sx mx ex], (Prim2SF y) as [sy|sy| |sy my ey];
    simpl; rewrite ?(xorb_comm sx sy); try reflexivity.
  unfold SF64mul, SFmul.
  rewrite (Pos.mul_comm mx my), (Z.add_comm ex ey). reflexivity.
Qed.

Lemma script_line_total (item : InvoiceItem) :
  (unit_price item * quantity item)%float = line_total item.
Proof. apply float_mul_comm. Qed.

Lemma fold_total_from (items : list InvoiceItem) (acc : float) :
  fold_left (fun total_price item =>
               (total_price + unit_price item * quantity item)%float) items acc
  = fold_left (fun acc item => (acc + line_total item)%float) items acc.
Proof.
  revert acc. induction items as [|item items IH]; intros acc; simpl.
  - reflexivity.
  - rewrite script_line_total. apply IH.
Qed.

Lemma calculate_total_price_sum (invoice : Invoice) :
  calculate_total_price invoice = sum_line_totals (invoice_items invoice).
Proof. apply fold_total_from. Qed.

Lemma fold_append_rows {A B : Type} (f : A → B) (l : list A) (acc : list B) :
  fold_left (fun acc x => (acc ++ [f x])%list) l acc = (acc ++ map f l)%list.
Proof.
  revert acc. induction l as [|x l IH]; intros acc; simpl.
  - symmetry. apply app_nil_r.
  - rewrite IH, <- List.app_assoc. reflexivity.
Qed.

Lemma append_assoc (a b c : string) : (a ++ b) ++ c = a ++ (b ++ c).
Proof.
  induction a as [|ch a IH]; [reflexivity|].
  change (String ch ((a ++ b) ++ c) = String ch (a ++ (b ++ c))).
  f_equal. exact IH.
Qed.

Lemma lower_char_replace_space (c : ascii) :
  Py.lower_char (if Ascii.eqb c " " then "_"%char else c)
  = if Ascii.eqb (Py.lower_char c) " " then "_"%char else Py.lower_char c.
Proof. destruct c as [[] [] [] [] [] [] [] []]; reflexivity. Qed.

(** Replacing spaces and lowercasing commute. *)
Lemma lower_replace_space (s : string) :
  Py.lower (Py.replace " " "_" s) = customer_name_normalized s.
Proof.
  unfold customer_name_normalized.
  induction s as [|c s IH]; simpl; [reflexivity|].
  rewrite lower_char_replace_space, IH. reflexivity.
Qed.

(** ** Claims about the composed document *)

Section ComposerClaims.

Variable float_str : float → string.
Variable textwrap_fill : string → Z → string.

Lemma items_data_rows (invoice : Invoice) :
  items_data float_str textwrap_fill invoice
  = (header_row :: map (item_row textwrap_fill) (invoice_items invoice)
       ++ [total_row float_str (invoice_currency invoice)
             (invoice_items invoice)])%list.
Proof.
  unfold items_data.
  rewrite (fold_append_rows
             (fun item =>
                [CStr (textwrap_fill (description item) 40);
                 CFloat (quantity item); CFloat (unit_price item);
                 CFloat (unit_price item * quantity item)%float])).
  rewrite calculate_total_price_sum. simpl. f_equal. f_equal.
  apply map_ext. intros item. unfold item_row.
  rewrite script_line_total. reflexivity.
Qed.

#[local] Arguments make_Table : simpl never.

Lemma make_Table_first_row (row : list cell) (rows : list (list cell))
  (widths : option (list Z)) (heights : option Z) (repeat : Z)
  (style : list style_command) :
  row ≠ [] →
  make_Table (row :: rows) widths heights repeat style
  = Ok (Table (row :: rows) widths heights repeat style).
Proof.
  intros Hrow. unfold make_Table, table_columns.
  destruct row as [|c row]; [contradiction|]. simpl.
  destruct (foldr _ _ rows); reflexivity.
Qed.

Lemma make_Table_no_row (widths : option (list Z)) (heights : option Z)
  (repeat : Z) (style : list style_command) :
  make_Table [] widths heights repeat style = Raise EmptyTable.
Proof. reflexivity. Qed.

Ltac build_tables :=
  repeat (rewrite make_Table_first_row by discriminate; run).

Lemma elements_no_header (invoice : Invoice) (settings : Settings) :
  invoice_header settings = [] →
  elements float_str textwrap_fill invoice settings = Raise EmptyTable.
Proof. intros H. unfold elements. rewrite H. reflexivity. Qed.

Lemma elements_unknown (invoice : Invoice) (settings : Settings) :
  invoice_header settings ≠ [] →
  payment_instructions settings !! Py.lower (invoice_currency invoice) = None →
  elements float_str textwrap_fill invoice settings
  = Raise (KeyError (Py.lower (invoice_currency invoice))).
Proof.
  intros Hh H. unfold elements. rewrite items_data_rows.
  destruct (invoice_header settings) as [|h hs]; [contradiction|].
  simpl map. build_tables. rewrite H. reflexivity.
Qed.

Lemma elements_no_footer (invoice : Invoice) (settings : Settings)
  (instruction : string) :
  payment_instructions settings !! Py.lower (invoice_currency invoice)
  = Some instruction →
  invoice_footer settings = [] →
  ∃ e, elements float_str textwrap_fill invoice settings = Raise e.
Proof.
  intros H Hf. unfold elements. rewrite items_data_rows.
  destruct (invoice_header settings) as [|h hs]; [eexists; reflexivity|].
  simpl map. build_tables. rewrite H, Hf. build_tables.
  eexists. reflexivity.
Qed.

Lemma elements_known (invoice : Invoice) (settings : Settings)
  (instruction : string) :
  invoice_header settings ≠ [] →
  invoice_footer settings ≠ [] →
  payment_instructions settings !! Py.lower (invoice_currency invoice)
  = Some instruction →
  ∃ identity details_style payment_style footer,
    elements float_str textwrap_fill invoice settings
    = Ok [identity; Spacer 1 24;
          Table [[CStr "Invoice Date:"; CStr (invoice_date invoice)];
                 [CStr "Invoice Number:"; CInt (invoice_number invoice)]]
                (Some [240; 300]) None 0 details_style;
          Spacer 1 24;
          Table (items_data float_str textwrap_fill invoice)
                (Some [250; 90; 100; 100]) None 1
                [TEXTCOLOR (0, 0) (-1, -1) black;
                 FONTNAME (0, 0) (-1, -1) "Helvetica";
                 FONTSIZE (0, 0) (-1, -1) 10;
                 ALIGN (0, 0) (0, 0) "LEFT";
                 BOTTOMPADDING (0, 0) (-1, -1) 5;
                 TOPPADDING (0, 0) (-1, -1) 5;
                 INNERGRID (0, 0) (-1, -1) 0.25%float black;
                 BOX (0, 0) (-1, -1) 0.25%float black;
                 BACKGROUND (0, 0) (-1, 0) lightgrey;
                 FONTNAME (0, -1) (-1, -1) "Helvetica-Bold";
                 FONTNAME (0, 0) (-1, 0) "Helvetica-Bold"];
          Spacer 1 12;
          Table [[CStr instruction]] (Some [550]) None 0 payment_style;
          Spacer 1 12; footer].
Proof.
  intros Hh Hf H. unfold elements. rewrite items_data_rows.
  destruct (invoice_header settings) as [|h hs]; [contradiction|].
  destruct (invoice_footer settings) as [|f fs]; [contradiction|].
  simpl map. build_tables. rewrite H. build_tables. eauto 10.
Qed.

(** A story is built only with a header line, a footer line and a known
    currency. *)
Lemma elements_built (invoice : Invoice) (settings : Settings)
  (blocks : list flowable) :
  elements float_str textwrap_fill invoice settings = Ok blocks →
  invoice_header settings ≠ [] ∧ invoice_footer settings ≠ []
  ∧ ∃ instruction,
      payment_instructions settings !! Py.lower (invoice_currency invoice)
      = Some instruction.
Proof.
  intros Hb.
  destruct (invoice_header settings) as [|h hs] eqn:Hh.
  { rewrite (elements_no_header _ _ Hh) in Hb. discriminate. }
  assert (Hh' : invoice_header settings ≠ []) by (rewrite Hh; discriminate).
  destruct (payment_instructions settings !! Py.lower (invoice_currency invoice))
    as [instruction|] eqn:Hk.
  2:{ rewrite (elements_unknown _ _ Hh' Hk) in Hb. discriminate. }
  destruct (invoice_footer settings) as [|f fs] eqn:Hf.
  { destruct (elements_no_footer _ _ _ Hk Hf) as [e He].
    rewrite He in Hb. discriminate. }
  repeat split; eauto; discriminate.
Qed.

Lemma output_pdf_story (dir_exists : bool) (invoice : Invoice)
  (settings : Settings) (d : document) :
  output_pdf float_str textwrap_fill dir_exists invoice settings = Ok d →
  dir_exists = true
  ∧ filename d = pdf_file_name invoice settings
  ∧ elements float_str textwrap_fill invoice settings = Ok (story d).
Proof.
  unfold output_pdf. destruct dir_exists; simpl; [|intros [=]].
  destruct (elements _ _ _ _); run; [|intros [=]].
  intros [= <-]. auto.
Qed.

(** C3.  The last row of the line-items block prints the sum of
    [quantity * unit_price] over the items, taken in their order; the
    stored [invoice_total_price] has no influence on that row, on the
    block, or on the document. *)
Theorem total_row_recomputed (invoice : Invoice) :
  last (items_data float_str textwrap_fill invoice)
  = Some [CStr ("Tot (" ++ invoice_currency invoice ++ "):"); CStr ""; CStr "";
          CStr (float_str (sum_line_totals (invoice_items invoice)) ++ " "
                ++ invoice_currency invoice)]
  ∧ (∀ stale,
       items_data float_str textwrap_fill (set_invoice_total_price stale invoice)
       = items_data float_str textwrap_fill invoice)
  ∧ (∀ stale dir_exists settings,
       output_pdf float_str textwrap_fill dir_exists
         (set_invoice_total_price stale invoice) settings
       = output_pdf float_str textwrap_fill dir_exists invoice settings).
Proof.
  split; [|split].
  - rewrite items_data_rows. rewrite app_comm_cons. apply last_snoc.
  - reflexivity.
  - reflexivity.
Qed.



(** C6, as the claim states it, fails on one point: the name given to the
    document template already ends in [.pdf]; the script appends the
    extension itself, the rendering library adds nothing. *)
Lemma file_name_carries_extension :
  pdf_file_name (blank 1) sample_settings = "out/1_acme_corp.pdf"
  ∧ pdf_file_name (blank 1) sample_settings
    ≠ output_directory sample_settings ++ "/" ++ "1_acme_corp".
Proof. split; [reflexivity | discriminate]. Qed.

(** C6, amended.  The artifact is written in the output directory under the
    base name made of the invoice number, an underscore and the customer
    name lowercased with every space replaced by an underscore; the script
    itself appends the extension [.pdf] and hands the complete name to the
    document template.  Customer Acme Corp with number 1 gives
    [1_acme_corp]. *)
Theorem artifact_name (invoice : Invoice) (settings : Settings) :
  pdf_file_name invoice settings
  = output_directory settings ++ "/"
    ++ (Py.str (invoice_number invoice) ++ "_"
        ++ customer_name_normalized (customer_name invoice))
    ++ ".pdf"
  ∧ (∀ dir_exists d,
       output_pdf float_str textwrap_fill dir_exists invoice settings = Ok d →
       filename d = pdf_file_name invoice settings)
  ∧ (customer_name invoice = "Acme Corp" → invoice_number invoice = 1 →
     Py.str (invoice_number invoice) ++ "_"
     ++ customer_name_normalized (customer_name invoice) = "1_acme_corp").
Proof.
  split; [|split].
  - unfold pdf_file_name. rewrite lower_replace_space.
    rewrite !append_assoc. reflexivity.
  - intros dir_exists d Hd. apply output_pdf_story in Hd. tauto.
  - intros -> ->. reflexivity.
Qed.


(** C7.  The line-items block is one header row, then one row per item in
    the order of the invoice (wrapped description, quantity, unit price,
    line total), then one total row; in a built document it is the data of
    the fifth flowable. *)
Theorem items_data_layout (invoice : Invoice) :
  items_data float_str textwrap_fill invoice
  = ([[CStr "Description"; CStr "Quantity"; CStr "Unit Price";
       CStr "Total Price"]]
     ++ map (fun item =>
               [CStr (textwrap_fill (description item) 40);
                CFloat (quantity item); CFloat (unit_price item);
                CFloat (quantity item * unit_price item)%float])
            (invoice_items invoice)
     ++ [[CStr ("Tot (" ++ invoice_currency invoice ++ "):"); CStr ""; CStr "";
          CStr (float_str (sum_line_totals (invoice_items invoice)) ++ " "
                ++ invoice_currency invoice)]])%list
  ∧ length (items_data float_str textwrap_fill invoice)
    = S (S (length (invoice_items invoice)))
  ∧ (∀ dir_exists settings d,
       output_pdf float_str textwrap_fill dir_exists invoice settings = Ok d →
       ∃ widths heights repeat style,
         story d !! 4%nat
         = Some (Table (items_data float_str textwrap_fill invoice)
                       widths heights repeat style)).
Proof.
  split; [|split].
  - apply items_data_rows.
  - rewrite items_data_rows. simpl.
    rewrite length_app, length_map. simpl. lia.
  - intros dir_exists settings d Hd.
    apply output_pdf_story in Hd as (_ & _ & Hd).
    destruct (elements_built _ _ _ Hd) as (Hh & Hf & (instruction & E)).
    destruct (elements_known _ _ _ Hh Hf E) as (b1 & b2 & st & b3 & He).
    rewrite He in Hd. injection Hd as <-. simpl. eauto.
Qed.


End ComposerClaims.

(** ** The claims at the sample invoice *)



Lemma artifact_name_witness :
  filename sample_document = pdf_file_name (blank 1) sample_settings
  ∧ Py.str (invoice_number (blank 1)) ++ "_"
    ++ customer_name_normalized (customer_name (blank 1)) = "1_acme_corp".
Proof.
  destruct (artifact_name sample_float_str sample_textwrap_fill
              (blank 1) sample_settings) as (_ & Hname & Hbase).
  split.
  - apply (Hname true sample_document). reflexivity.
  - apply Hbase; reflexivity.
Defined.

Lemma items_data_layout_witness :
  ∃ widths heights repeat style,
    story sample_document !! 4%nat
    = Some (Table (items_data sample_float_str sample_textwrap_fill (blank 1))
                  widths heights repeat style).
Proof.
  apply (proj2 (proj2 (items_data_layout sample_float_str sample_textwrap_fill
                         (blank 1))) true sample_settings sample_document).
  reflexivity.
Defined.


(** The end-to-end scenario of the specification: empty ledger, one item of
    quantity 2 at 100.0. *)
Example acme_end_to_end :
  __init__ "01/02/2024" [] (blank 0) = Ok (blank 1)
  ∧ calculate_total_price (blank 1) = 200%float
  ∧ pdf_file_name (blank 1) sample_settings = "out/1_acme_corp.pdf"
  ∧ last (items_data sample_float_str sample_textwrap_fill (blank 1))
    = Some [CStr "Tot (EUR):"; CStr ""; CStr ""; CStr "200.0 EUR"].
Proof. repeat split; reflexivity. Qed.

(** ** Facts about the string primitives *)

Lemma append_cons (c : ascii) (a b : string) :
  String c a ++ b = String c (a ++ b).
Proof. reflexivity. Qed.

Lemma append_nil_l (b : string) : "" ++ b = b.
Proof. reflexivity. Qed.

Lemma length_append (a b : string) :
  String.length (a ++ b) = (String.length a + String.length b)%nat.
Proof.
  induction a as [|c a IH]; [reflexivity|].
  rewrite append_cons. simpl. now rewrite IH.
Qed.

Lemma append_inv_head (a x y : string) : a ++ x = a ++ y → x = y.
Proof.
  induction a as [|c a IH]; [auto|].
  rewrite !append_cons. intros [= H]. auto.
Qed.

Lemma startswith_append (p r : string) : Py.startswith (p ++ r) p = true.
Proof.
  unfold Py.startswith.
  induction p as [|c p IH]; [destruct r; reflexivity|].
  rewrite append_cons. simpl.
  destruct (ascii_dec c c); [exact IH | contradiction].
Qed.

Lemma substring_all (s : string) : substring 0 (String.length s) s = s.
Proof. induction s as [|c s IH]; simpl; [reflexivity | now rewrite IH]. Qed.

Lemma substring_skip (a b : string) (m : nat) :
  substring (String.length a) m (a ++ b) = substring 0 m b.
Proof.
  induction a as [|c a IH]; [reflexivity|].
  rewrite append_cons. simpl. exact IH.
Qed.

Lemma endswith_append (a suffix : string) :
  Py.endswith (a ++ suffix) suffix = true.
Proof.
  unfold Py.endswith. rewrite length_append.
  replace (String.length a + String.length suffix - String.length suffix)%nat
    with (String.length a) by lia.
  rewrite substring_skip, substring_all, String.eqb_refl.
  rewrite andb_true_r. apply Nat.leb_le. lia.
Qed.

(** The part before the first separator of [s ++ sep ++ r] is [s] when
    [s] holds no separator. *)
Lemma split_first_append (sep : ascii) (s r : string) :
  Py.forallb_string (fun c => negb (Ascii.eqb c sep)) s = true →
  Py.first (Py.split sep (s ++ String sep r)) = s.
Proof.
  induction s as [|c s IH]; intros H.
  - rewrite append_nil_l. simpl. rewrite Ascii.eqb_refl. reflexivity.
  - rewrite append_cons. simpl in *.
    apply andb_true_iff in H as [Hc Hs].
    destruct (Ascii.eqb c sep); [discriminate|].
    specialize (IH Hs).
    destruct (Py.split sep (s ++ String sep r)) as [|w ws];
      simpl in *; now rewrite IH.
Qed.

Lemma forallb_string_impl (p q : ascii → bool) (s : string) :
  (∀ c, p c = true → q c = true) →
  Py.forallb_string p s = true → Py.forallb_string q s = true.
Proof.
  intros Hpq. induction s as [|c s IH]; simpl; [auto|].
  rewrite !andb_true_iff. intros [? ?]. auto.
Qed.

Lemma forallb_string_append (p : ascii → bool) (a b : string) :
  Py.forallb_string p (a ++ b)
  = Py.forallb_string p a && Py.forallb_string p b.
Proof.
  induction a as [|c a IH]; [reflexivity|].
  rewrite append_cons. simpl. rewrite IH. apply andb_assoc.
Qed.

(** *** [str] of an integer *)

Lemma uint_digits_decimal (d : Decimal.uint) :
  Py.forallb_string Py.isdecimal_char (NilEmpty.string_of_uint d) = true.
Proof. induction d; simpl; auto. Qed.

Lemma uint_digits_value_acc (d : Decimal.uint) (acc : positive) :
  Py.int_digits (Z.pos acc) (NilEmpty.string_of_uint d)
  = Z.pos (Pos.of_uint_acc d acc).
Proof.
  revert acc. induction d; intros acc; simpl; [reflexivity|..];
    rewrite <- IHd; f_equal; unfold Py.digit_value; simpl; lia.
Qed.

Lemma uint_digits_value (d : Decimal.uint) :
  Py.int_digits 0 (NilEmpty.string_of_uint d) = Z.of_N (Pos.of_uint d).
Proof.
  induction d; simpl; [reflexivity|exact IHd|..];
    apply uint_digits_value_acc.
Qed.

Lemma str_pos (p : positive) :
  Py.str (Z.pos p) = NilEmpty.string_of_uint (Pos.to_uint p).
Proof.
  unfold Py.str. simpl. unfold NilZero.string_of_uint.
  pose proof (Unsigned.to_uint_nonnil p).
  destruct (Pos.to_uint p); [contradiction|reflexivity..].
Qed.

Lemma str_neg (p : positive) : Py.str (Z.neg p) = String "-" (Py.str (Z.pos p)).
Proof. reflexivity. Qed.

Lemma str_nonneg_digits (n : Z) :
  (0 <= n)%Z → Py.forallb_string Py.isdecimal_char (Py.str n) = true.
Proof.
  destruct n as [|p|p]; intros H; [reflexivity| |lia].
  rewrite str_pos. apply uint_digits_decimal.
Qed.

Lemma str_nonempty (n : Z) : Py.str n ≠ "".
Proof.
  destruct n as [|p|p]; [discriminate| |discriminate].
  rewrite str_pos. pose proof (Unsigned.to_uint_nonnil p).
  destruct (Pos.to_uint p); [contradiction|discriminate..].
Qed.

Lemma isdecimal_forallb (s : string) :
  s ≠ "" → Py.isdecimal s = Py.forallb_string Py.isdecimal_char s.
Proof. destruct s; [contradiction|reflexivity]. Qed.

Lemma isdigit_forallb (s : string) :
  s ≠ "" → Py.isdigit s = Py.forallb_string Py.isdigit_char s.
Proof. destruct s; [contradiction|reflexivity]. Qed.

Lemma isdecimal_isdigit (s : string) :
  Py.isdecimal s = true → Py.isdigit s = true.
Proof.
  destruct s as [|c s]; [discriminate|].
  unfold Py.isdecimal, Py.isdigit.
  apply forallb_string_impl. intros ch H. unfold Py.isdigit_char.
  rewrite H. reflexivity.
Qed.

(** [int(str(n))] gives [n] back for a non-negative [n]. *)
Lemma int_str (n : Z) : (0 <= n)%Z → int (Py.str n) = Ok n.
Proof.
  intros H. unfold int.
  rewrite (isdecimal_forallb _ (str_nonempty n)), (str_nonneg_digits n H).
  f_equal. destruct n as [|p|p]; [reflexivity| |lia].
  rewrite str_pos, uint_digits_value, Unsigned.of_to. reflexivity.
Qed.

Lemma str_inj (n m : Z) : Py.str n = Py.str m → n = m.
Proof.
  intros H. apply DecimalZ.to_int_inj.
  assert (E : ∀ k, NilEmpty.int_of_string (Py.str k) = Some (Z.to_int k)).
  { intros k. unfold Py.str.
    destruct k as [|p|p]; [reflexivity| |].
    - simpl. unfold NilZero.string_of_uint.
      pose proof (Unsigned.to_uint_nonnil p).
      pose proof (NilEmpty.isi (Decimal.Pos (Pos.to_uint p))) as I.
      destruct (Pos.to_uint p); [contradiction|exact I..].
    - simpl. unfold NilZero.string_of_uint.
      pose proof (Unsigned.to_uint_nonnil p).
      pose proof (NilEmpty.isi (Decimal.Neg (Pos.to_uint p))) as I.
      destruct (Pos.to_uint p); [contradiction|exact I..]. }
  pose proof (E n) as En. rewrite H, E in En. congruence.
Qed.

Lemma str_no_underscore (n : Z) :
  Py.forallb_string (fun c => negb (Ascii.eqb c "_")) (Py.str n) = true.
Proof.
  assert (D : ∀ s, Py.forallb_string Py.isdecimal_char s = true →
                   Py.forallb_string (fun c => negb (Ascii.eqb c "_")) s = true).
  { intros s. apply forallb_string_impl.
    intros c. destruct c as [[] [] [] [] [] [] [] []]; auto. }
  destruct n as [|p|p].
  - reflexivity.
  - apply D, str_nonneg_digits. lia.
  - rewrite str_neg. simpl. apply D, str_nonneg_digits. lia.
Qed.

(** ** The artifact name as a ledger entry *)

Lemma pdf_file_name_entry (invoice : Invoice) (settings : Settings) :
  pdf_file_name invoice settings
  = output_directory settings ++ "/" ++ artifact_entry invoice.
Proof. reflexivity. Qed.

Lemma artifact_entry_token (invoice : Invoice) :
  leading_token (artifact_entry invoice) = Py.str (invoice_number invoice).
Proof.
  unfold leading_token, artifact_entry.
  change ("_" ++ ?r) with (String "_" r).
  apply split_first_append, str_no_underscore.
Qed.

Lemma artifact_entry_pdf (invoice : Invoice) :
  Py.endswith (artifact_entry invoice) ".pdf" = true.
Proof.
  unfold artifact_entry. rewrite <- !append_assoc. apply endswith_append.
Qed.

Lemma artifact_entry_collides (invoice : Invoice) :
  collides (invoice_number invoice) (artifact_entry invoice) = true.
Proof. apply startswith_append. Qed.

Lemma artifact_entry_counted (invoice : Invoice) :
  (0 <= invoice_number invoice)%Z →
  counted (artifact_entry invoice) = true
  ∧ Py.isdecimal (leading_token (artifact_entry invoice)) = true
  ∧ leading_number (artifact_entry invoice) = invoice_number invoice.
Proof.
  intros Hn.
  pose proof (int_str _ Hn) as Hint. unfold int in Hint.
  destruct (Py.isdecimal (Py.str (invoice_number invoice))) eqn:D;
    [|discriminate].
  injection Hint as Hval.
  unfold counted, leading_number.
  fold (leading_token (artifact_entry invoice)).
  rewrite artifact_entry_pdf, artifact_entry_token.
  rewrite (isdecimal_isdigit _ D). auto.
Qed.

Lemma negative_str_not_digit (p : positive) : Py.isdigit (Py.str (Z.neg p)) = false.
Proof. reflexivity. Qed.

(** ** The next-number scan on arbitrary ledgers *)

Lemma decimal_ledger_cons (f : string) (l : list string) :
  decimal_ledger (f :: l)
  ↔ (counted f = true → Py.isdecimal (leading_token f) = true)
    ∧ decimal_ledger l.
Proof.
  unfold decimal_ledger. split.
  - intros H. split; [apply H; left; reflexivity|].
    intros g Hg. apply H. right. exact Hg.
  - intros [Hf Hl] g [<-|Hg]; auto.
Qed.

Lemma scan_success_decimal (l : list string) (a m : Z) :
  for_each next_number_step l a = Ok m → decimal_ledger l.
Proof.
  revert a. induction l as [|f l IH]; intros a; simpl.
  - intros _ g [].
  - rewrite next_number_step_max, decimal_ledger_cons.
    destruct (counted f); [destruct (Py.isdecimal (leading_token f))|]; run;
      try (intros [=]; fail); intros H%IH; auto.
    split; [discriminate | exact H].
Qed.

Lemma scan_failure (l : list string) (a : Z) (e : exn) :
  for_each next_number_step l a = Raise e →
  ∃ f, In f l ∧ counted f = true
       ∧ Py.isdecimal (leading_token f) = false
       ∧ e = ValueError (leading_token f).
Proof.
  revert a. induction l as [|f l IH]; intros a; simpl; [intros [=]|].
  rewrite next_number_step_max.
  destruct (counted f) eqn:C; [destruct (Py.isdecimal (leading_token f)) eqn:D|];
    run.
  - intros (g & ? & ?)%IH. exists g. auto.
  - intros [= <-]. exists f. auto.
  - intros (g & ? & ?)%IH. exists g. auto.
Qed.

Lemma max_existing_cons (f : string) (l : list string) :
  max_existing (f :: l)
  = if counted f then Z.max (leading_number f) (max_existing l)
    else max_existing l.
Proof. unfold max_existing. simpl. destruct (counted f); reflexivity. Qed.

Lemma max_existing_upper (l : list string) (f : string) :
  In f l → counted f = true → (leading_number f <= max_existing l)%Z.
Proof.
  induction l as [|g l IH]; [intros []|].
  rewrite max_existing_cons. intros [->|Hin] Hc.
  - rewrite Hc. lia.
  - specialize (IH Hin Hc). destruct (counted g); lia.
Qed.

Lemma max_existing_attained (l : list string) :
  max_existing l = 0
  ∨ ∃ f, In f l ∧ counted f = true ∧ leading_number f = max_existing l.
Proof.
  induction l as [|g l IH]; [left; reflexivity|].
  rewrite max_existing_cons. destruct (counted g) eqn:C.
  - destruct (Z.max_spec (leading_number g) (max_existing l)) as [[_ ->]|[_ ->]].
    + destruct IH as [IH|(f & ? & ? & ?)]; [auto|].
      right. exists f. simpl. auto.
    + right. exists g. simpl. auto.
  - destruct IH as [IH|(f & ? & ? & ?)]; [auto|].
    right. exists f. simpl. auto.
Qed.

Lemma max_existing_permutation (l l' : list string) :
  Permutation l l' → max_existing l = max_existing l'.
Proof.
  induction 1 as [|x l l' _ IH|x y l|l l' l'' _ IH1 _ IH2].
  - reflexivity.
  - rewrite !max_existing_cons, IH. reflexivity.
  - rewrite !max_existing_cons. destruct (counted x), (counted y); lia.
  - congruence.
Qed.

Lemma decimal_ledger_permutation (l l' : list string) :
  Permutation l l' → decimal_ledger l → decimal_ledger l'.
Proof.
  intros HP H f Hin. apply H.
  apply (Permutation_in f (Permutation_sym HP) Hin).
Qed.

Lemma next_number_ok_iff (l : list string) (m : Z) :
  get_next_invoice_number l = Ok m
  ↔ decimal_ledger l ∧ m = max_existing l + 1.
Proof.
  split.
  - intros H. pose proof (scan_success_decimal _ _ _ H) as D.
    rewrite (get_next_invoice_number_decimal _ D) in H.
    injection H as <-. auto.
  - intros [D ->]. apply get_next_invoice_number_decimal, D.
Qed.

Lemma max_existing_incl (l l' : list string) :
  (∀ f, In f l → In f l') → (max_existing l <= max_existing l')%Z.
Proof.
  intros Hincl.
  destruct (max_existing_attained l) as [->|(f & Hin & Hc & <-)].
  - apply max_existing_nonneg.
  - apply max_existing_upper; auto.
Qed.

Lemma duplicate_scan_permutation (n : Z) (l l' : list string) :
  Permutation l l' →
  for_each (duplicate_step n) l tt = for_each (duplicate_step n) l' tt.
Proof.
  intros HP.
  destruct (for_each (duplicate_step n) l tt) as [[]|e] eqn:E; symmetry.
  - apply duplicate_scan_ok. intros f Hin.
    apply (proj1 (duplicate_scan_ok n l) E).
    apply (Permutation_in f (Permutation_sym HP) Hin).
  - apply duplicate_scan_raise in E as [-> (f & Hin & Hc)].
    apply duplicate_scan_raise. split; [reflexivity|].
    exists f. split; [apply (Permutation_in f HP Hin) | exact Hc].
Qed.

Lemma constructed_numbers_nonzero (now : string) (listing : list string)
  (self built : Invoice) :
  __init__ now listing self = Ok built → invoice_number built ≠ 0.
Proof.
  destruct (Z.eq_dec (invoice_number self) 0) as [E|E].
  - rewrite (init_pending _ _ _ E).
    destruct (get_next_invoice_number listing) as [n|e] eqn:G; [|intros [=]].
    intros [= <-]. apply scan_lower_bound in G. simpl. lia.
  - rewrite (init_requested _ _ _ E).
    destruct (for_each _ _ _); [|intros [=]].
    intros [= <-]. rewrite default_date_number. exact E.
Qed.

Lemma scan_permutation_ok (la lb : list string) (m : Z) :
  Permutation la lb →
  get_next_invoice_number la = Ok m → get_next_invoice_number lb = Ok m.
Proof.
  intros P H. apply next_number_ok_iff in H as [D ->].
  apply next_number_ok_iff. split.
  - apply (decimal_ledger_permutation la lb P D).
  - rewrite (max_existing_permutation la lb P). reflexivity.
Qed.

(** ** Further properties of the numbering *)

Lemma int_raises_iff (token : string) (e : exn) :
  int token = Raise e ↔ Py.isdecimal token = false ∧ e = ValueError token.
Proof.
  unfold int. destruct (Py.isdecimal token).
  - split; [intros [=] | intros [[=] _]].
  - split; [intros [= <-]; auto | intros [_ ->]; reflexivity].
Qed.

(** X1.  The next-number scan stops with an exception exactly when [int]
    raises on the leading token of some counted entry (an entry ending in
    [.pdf] whose leading token [isdigit] accepts); the exception is then
    the one [int] raised.  Entries that are not counted can never make it
    fail. *)
Theorem next_number_fails_iff (listing : list string) :
  ((∃ e, get_next_invoice_number listing = Raise e)
   ↔ ∃ file, In file listing ∧ counted file = true
             ∧ ∃ e, int (leading_token file) = Raise e)
  ∧ (∀ e, get_next_invoice_number listing = Raise e →
          ∃ file, In file listing ∧ counted file = true
                  ∧ int (leading_token file) = Raise e).
Proof.
  split; [split|].
  - intros [e He]. apply scan_failure in He as (f & ? & ? & ? & ->).
    exists f. repeat split; auto.
    exists (ValueError (leading_token f)). apply int_raises_iff. auto.
  - intros (f & Hin & Hc & (e0 & Hd)). apply int_raises_iff in Hd as [Hd _].
    destruct (get_next_invoice_number listing) as [m|e] eqn:E; [|eauto].
    apply scan_success_decimal in E. rewrite (E f Hin Hc) in Hd. discriminate.
  - intros e He. apply scan_failure in He as (f & ? & ? & ? & ->).
    exists f. repeat split; auto. apply int_raises_iff. auto.
Qed.

(** X2.  When the scan succeeds, the number it returns is at least 1, is
    above the leading number of every counted entry, and is either 1 or
    one more than the leading number of some counted entry. *)
Theorem next_number_least_above (listing : list string) (m : Z) :
  get_next_invoice_number listing = Ok m →
  (1 <= m)%Z
  ∧ (∀ file, In file listing → counted file = true →
             (leading_number file < m)%Z)
  ∧ (m = 1 ∨ ∃ file, In file listing ∧ counted file = true
                     ∧ leading_number file = m - 1).
Proof.
  intros H. apply next_number_ok_iff in H as [_ ->].
  pose proof (max_existing_nonneg listing).
  split; [lia|]. split.
  - intros f Hin Hc. pose proof (max_existing_upper _ _ Hin Hc). lia.
  - destruct (max_existing_attained listing) as [->|(f & ? & ? & E)];
      [left; reflexivity|].
    right. exists f. repeat split; auto. lia.
Qed.

Lemma next_number_least_above_witness :
  (1 <= 8)%Z
  ∧ (∀ file, In file ["3_acme.pdf"; "7_globex.pdf"; "9notes.txt"] →
             counted file = true → (leading_number file < 8)%Z)
  ∧ (8 = 1 ∨ ∃ file, In file ["3_acme.pdf"; "7_globex.pdf"; "9notes.txt"]
                     ∧ counted file = true ∧ leading_number file = 8 - 1).
Proof.
  apply (next_number_least_above ["3_acme.pdf"; "7_globex.pdf"; "9notes.txt"] 8).
  reflexivity.
Defined.

(** X3.  The order in which the directory is listed does not matter to the
    scan: on two listings with the same entries it returns the same number,
    or fails on both. *)
Theorem next_number_order_independent (l1 l2 : list string) :
  Permutation l1 l2 →
  (∀ m, get_next_invoice_number l1 = Ok m ↔ get_next_invoice_number l2 = Ok m)
  ∧ ((∃ e, get_next_invoice_number l1 = Raise e)
     ↔ ∃ e, get_next_invoice_number l2 = Raise e).
Proof.
  intros HP.
  assert (Hfail : ∀ la lb, Permutation la lb →
            (∃ e, get_next_invoice_number la = Raise e) →
            ∃ e, get_next_invoice_number lb = Raise e).
  { intros la lb P [e He].
    destruct (get_next_invoice_number lb) as [m|e'] eqn:E; [|eauto].
    apply (scan_permutation_ok lb la m (Permutation_sym P)) in E. congruence. }
  split; [intros m|]; split.
  - apply scan_permutation_ok, HP.
  - apply scan_permutation_ok, Permutation_sym, HP.
  - apply Hfail, HP.
  - apply Hfail, Permutation_sym, HP.
Qed.

Lemma next_number_order_independent_witness :
  get_next_invoice_number ["3_acme.pdf"; "notes.txt"; "7_globex.pdf"] = Ok 8
  ↔ get_next_invoice_number ["7_globex.pdf"; "3_acme.pdf"; "notes.txt"] = Ok 8.
Proof.
  apply (next_number_order_independent
           ["3_acme.pdf"; "notes.txt"; "7_globex.pdf"]
           ["7_globex.pdf"; "3_acme.pdf"; "notes.txt"]).
  apply Permutation_sym.
  apply (Permutation_cons_app ["3_acme.pdf"; "notes.txt"] [] "7_globex.pdf").
  reflexivity.
Defined.

(** X4.  A ledger that holds every entry of another one never gives a
    smaller next number (when the scan succeeds on both). *)
Theorem next_number_monotone (l1 l2 : list string) (m1 m2 : Z) :
  (∀ file, In file l1 → In file l2) →
  get_next_invoice_number l1 = Ok m1 →
  get_next_invoice_number l2 = Ok m2 →
  (m1 <= m2)%Z.
Proof.
  intros Hincl [_ ->]%next_number_ok_iff [_ ->]%next_number_ok_iff.
  pose proof (max_existing_incl l1 l2 Hincl). lia.
Qed.

Lemma next_number_monotone_witness : (4 <= 8)%Z.
Proof.
  apply (next_number_monotone ["3_acme.pdf"] ["7_globex.pdf"; "3_acme.pdf"] 4 8).
  - intros file [<-|[]]. right. left. reflexivity.
  - reflexivity.
  - reflexivity.
Defined.

(** X5.  Construction does not depend on the order of the listing either:
    it succeeds with the same record on two listings with the same entries,
    and for a requested non-zero number the whole outcome is the same. *)
Theorem init_order_independent (now : string) (l1 l2 : list string)
  (self : Invoice) :
  Permutation l1 l2 →
  (∀ built, __init__ now l1 self = Ok built ↔ __init__ now l2 self = Ok built)
  ∧ (invoice_number self ≠ 0 → __init__ now l1 self = __init__ now l2 self).
Proof.
  intros HP.
  destruct (Z.eq_dec (invoice_number self) 0) as [E|E].
  - split; [|contradiction].
    intros built. rewrite !(init_pending _ _ _ E).
    destruct (get_next_invoice_number l1) as [m|e] eqn:E1.
    + rewrite (scan_permutation_ok l1 l2 m HP E1). reflexivity.
    + destruct (get_next_invoice_number l2) as [m|e'] eqn:E2.
      * apply (scan_permutation_ok l2 l1 m (Permutation_sym HP)) in E2.
        congruence.
      * split; intros [=].
  - assert (Heq : __init__ now l1 self = __init__ now l2 self).
    { rewrite !(init_requested _ _ _ E).
      rewrite (duplicate_scan_permutation _ l1 l2 HP). reflexivity. }
    split; [|auto]. intros built. rewrite Heq. reflexivity.
Qed.

Lemma init_order_independent_witness :
  __init__ "01/02/2024" ["3_acme.pdf"; "5notes.txt"] (blank 5)
  = __init__ "01/02/2024" ["5notes.txt"; "3_acme.pdf"] (blank 5).
Proof.
  apply (init_order_independent "01/02/2024"
           ["3_acme.pdf"; "5notes.txt"] ["5notes.txt"; "3_acme.pdf"] (blank 5)).
  - apply perm_swap.
  - discriminate.
Defined.

(** X6.  Construction changes nothing but the number and an empty date:
    every other field of the record is the one supplied, the date is the
    supplied one unless that was empty, in which case it is the current
    date. *)
Theorem init_keeps_fields (now : string) (listing : list string)
  (self built : Invoice) :
  __init__ now listing self = Ok built →
  customer_name built = customer_name self
  ∧ customer_address1 built = customer_address1 self
  ∧ customer_address2 built = customer_address2 self
  ∧ customer_business_number built = customer_business_number self
  ∧ invoice_currency built = invoice_currency self
  ∧ invoice_items built = invoice_items self
  ∧ invoice_total_price built = invoice_total_price self
  ∧ invoice_date built
    = (if String.eqb (invoice_date self) "" then now else invoice_date self).
Proof.
  assert (D : ∀ n, let r := set_invoice_number n (default_date now self) in
    customer_name r = customer_name self
    ∧ customer_address1 r = customer_address1 self
    ∧ customer_address2 r = customer_address2 self
    ∧ customer_business_number r = customer_business_number self
    ∧ invoice_currency r = invoice_currency self
    ∧ invoice_items r = invoice_items self
    ∧ invoice_total_price r = invoice_total_price self
    ∧ invoice_date r
      = (if String.eqb (invoice_date self) "" then now else invoice_date self)).
  { intros n. unfold default_date.
    destruct (String.eqb (invoice_date self) ""); simpl; repeat split. }
  destruct (Z.eq_dec (invoice_number self) 0) as [E|E].
  - rewrite (init_pending _ _ _ E).
    destruct (get_next_invoice_number listing); [|intros [=]].
    intros [= <-]. apply D.
  - rewrite (init_requested _ _ _ E).
    destruct (for_each _ _ _); [|intros [=]].
    intros [= <-]. specialize (D (invoice_number self)).
    unfold default_date in *.
    destruct (String.eqb (invoice_date self) ""); simpl in *; exact D.
Qed.

Lemma init_keeps_fields_witness :
  customer_name (blank 4) = customer_name (blank 0)
  ∧ customer_address1 (blank 4) = customer_address1 (blank 0)
  ∧ customer_address2 (blank 4) = customer_address2 (blank 0)
  ∧ customer_business_number (blank 4) = customer_business_number (blank 0)
  ∧ invoice_currency (blank 4) = invoice_currency (blank 0)
  ∧ invoice_items (blank 4) = invoice_items (blank 0)
  ∧ invoice_total_price (blank 4) = invoice_total_price (blank 0)
  ∧ invoice_date (blank 4)
    = (if String.eqb (invoice_date (blank 0)) "" then "05/06/2024"
       else invoice_date (blank 0)).
Proof.
  apply (init_keeps_fields "05/06/2024" ["3_acme.pdf"] (blank 0) (blank 4)).
  reflexivity.
Defined.

(** ** The artifact of one run seen by the numbering of the next *)

(** X7.  The file written for an invoice is recognised by both scans of a
    later run whenever its number is not negative: its entry name ends in
    [.pdf], its part before the first underscore is [str] of the number
    whatever the customer name, it is counted with exactly that number, and
    it collides with that number.  For a negative number the entry still
    collides but is not counted. *)
Theorem artifact_recognised (invoice : Invoice) :
  leading_token (artifact_entry invoice) = Py.str (invoice_number invoice)
  ∧ collides (invoice_number invoice) (artifact_entry invoice) = true
  ∧ ((0 <= invoice_number invoice)%Z →
     counted (artifact_entry invoice) = true
     ∧ int (leading_token (artifact_entry invoice))
       = Ok (invoice_number invoice))
  ∧ ((invoice_number invoice < 0)%Z →
     counted (artifact_entry invoice) = false).
Proof.
  split; [apply artifact_entry_token|].
  split; [apply artifact_entry_collides|]. split.
  - intros Hn. split; [apply artifact_entry_counted, Hn|].
    rewrite artifact_entry_token. apply int_str, Hn.
  - intros Hn. unfold counted.
    fold (leading_token (artifact_entry invoice)).
    rewrite artifact_entry_token.
    destruct (invoice_number invoice) as [|p|p]; try lia.
    rewrite negative_str_not_digit. apply andb_false_r.
Qed.

Lemma artifact_recognised_witness :
  counted (artifact_entry (blank 12)) = true
  ∧ int (leading_token (artifact_entry (blank 12))) = Ok 12.
Proof.
  apply (proj1 (proj2 (proj2 (artifact_recognised (blank 12))))).
  simpl. lia.
Defined.

(** X8.  Once the artifact of an invoice is in the ledger, its number is
    taken: a request for the same non-zero number is rejected as a
    duplicate, and, for a number that is not negative, a scan that succeeds
    returns a larger number. *)
Theorem issued_number_is_taken (now : string) (listing : list string)
  (issued self : Invoice) :
  In (artifact_entry issued) listing →
  (invoice_number issued ≠ 0 →
   invoice_number self = invoice_number issued →
   __init__ now listing self
   = Raise (DuplicateInvoiceNumber (invoice_number issued)))
  ∧ ((0 <= invoice_number issued)%Z →
     ∀ m, get_next_invoice_number listing = Ok m →
          (invoice_number issued < m)%Z).
Proof.
  intros Hin. split.
  - intros Hn Heq. rewrite <- Heq in Hn. rewrite (init_requested _ _ _ Hn), Heq.
    assert (H : for_each (duplicate_step (invoice_number issued)) listing tt
                = Raise (DuplicateInvoiceNumber (invoice_number issued))).
    { apply duplicate_scan_raise. split; [reflexivity|].
      exists (artifact_entry issued). split; [exact Hin|].
      apply artifact_entry_collides. }
    rewrite H. reflexivity.
  - intros Hn m [_ ->]%next_number_ok_iff.
    destruct (artifact_entry_counted issued Hn) as (Hc & _ & Hv).
    pose proof (max_existing_upper _ _ Hin Hc). lia.
Qed.

Lemma issued_number_is_taken_witness :
  __init__ "01/02/2024" ["3_acme.pdf"; artifact_entry (blank 4)] (blank 4)
  = Raise (DuplicateInvoiceNumber 4).
Proof.
  apply (issued_number_is_taken "01/02/2024"
           ["3_acme.pdf"; artifact_entry (blank 4)] (blank 4) (blank 4)).
  - right. left. reflexivity.
  - discriminate.
  - reflexivity.
Defined.

(** X9.  Numbers are consecutive: when construction assigned a number on
    a ledger (none was requested), then on the ledger extended with the
    artifact of that invoice the scan returns the next integer. *)
Theorem consecutive_numbers (now : string) (listing : list string)
  (self built : Invoice) :
  invoice_number self = 0 →
  __init__ now listing self = Ok built →
  get_next_invoice_number (artifact_entry built :: listing)
  = Ok (invoice_number built + 1).
Proof.
  intros E H. rewrite (init_pending _ _ _ E) in H.
  destruct (get_next_invoice_number listing) as [m|e] eqn:G; [|discriminate].
  injection H as <-. simpl.
  set (built := set_invoice_number m (default_date now self)).
  assert (Hm : invoice_number built = m) by reflexivity.
  apply next_number_ok_iff in G as [D ->].
  pose proof (max_existing_nonneg listing) as Hpos.
  assert (Hn : (0 <= invoice_number built)%Z) by (rewrite Hm; lia).
  destruct (artifact_entry_counted built Hn) as (Hc & Hd & Hv).
  apply next_number_ok_iff. split.
  - apply decimal_ledger_cons. auto.
  - rewrite max_existing_cons, Hc, Hv, Hm. lia.
Qed.

Lemma consecutive_numbers_witness :
  get_next_invoice_number (artifact_entry (blank 4) :: ["3_acme.pdf"])
  = Ok (invoice_number (blank 4) + 1).
Proof.
  apply (consecutive_numbers "01/02/2024" ["3_acme.pdf"] (blank 0) (blank 4));
    reflexivity.
Defined.

(** X10.  Two invoices written to the same output directory under the same
    file name have the same number: invoices with different numbers never
    overwrite each other, whatever their customer names. *)
Theorem file_name_determines_number (i1 i2 : Invoice) (settings : Settings) :
  pdf_file_name i1 settings = pdf_file_name i2 settings →
  invoice_number i1 = invoice_number i2.
Proof.
  rewrite !pdf_file_name_entry. intros H.
  apply append_inv_head in H. apply append_inv_head in H.
  apply str_inj. rewrite <- !artifact_entry_token. now rewrite H.
Qed.

Lemma file_name_determines_number_witness :
  invoice_number (blank 7) = invoice_number (set_invoice_date "" (blank 7)).
Proof.
  apply (file_name_determines_number (blank 7) (set_invoice_date "" (blank 7))
           sample_settings).
  reflexivity.
Defined.

Lemma lower_char_idempotent (c : ascii) :
  Py.lower_char (Py.lower_char c) = Py.lower_char c.
Proof. destruct c as [[] [] [] [] [] [] [] []]; reflexivity. Qed.

Lemma lower_char_not_upper (c : ascii) : Py.has_lower (Py.lower_char c) = false.
Proof. destruct c as [[] [] [] [] [] [] [] []]; reflexivity. Qed.

Lemma normalized_char_not_space (c : ascii) :
  Ascii.eqb (Py.lower_char (if Ascii.eqb c " " then "_"%char else c)) " " = false.
Proof. destruct c as [[] [] [] [] [] [] [] []]; reflexivity. Qed.

(** X11.  For a customer name made of code points below U+0100, the
    customer part of the file name, [name.replace(" ", "_").lower()],
    holds no space and no character that has a lowercase form, and
    normalising it again changes nothing; so names that differ only by
    case or by spaces against underscores give the same file name. *)
Theorem normalized_name (name : string) :
  let n := Py.lower (Py.replace " " "_" name) in
  Py.forallb_string (fun c => negb (Ascii.eqb c " ") && negb (Py.has_lower c)) n
  = true
  ∧ Py.lower (Py.replace " " "_" n) = n.
Proof.
  cbv zeta. induction name as [|c s (IH1 & IH2)]; [auto|].
  cbn [Py.replace Py.lower Py.forallb_string].
  rewrite IH1, IH2.
  rewrite !normalized_char_not_space, lower_char_not_upper, lower_char_idempotent.
  auto.
Qed.

(** ** Totals, the printed summary and [main] *)

Lemma fold_append_chunks {A B : Type} (f : A → list B) (l : list A)
  (acc : list B) :
  fold_left (fun acc x => app acc (f x)) l acc = app acc (flat_map f l).
Proof.
  revert acc. induction l as [|x l IH]; intros acc; simpl.
  - symmetry. apply app_nil_r.
  - rewrite IH, <- List.app_assoc. reflexivity.
Qed.

Lemma total_price_append (items more : list InvoiceItem) (acc : float) :
  fold_left (fun total_price item =>
               (total_price + unit_price item * quantity item)%float)
            (items ++ more)%list acc
  = fold_left (fun total_price item =>
                 (total_price + unit_price item * quantity item)%float)
              more
              (fold_left (fun total_price item =>
                            (total_price + unit_price item * quantity item)%float)
                         items acc).
Proof. apply fold_left_app. Qed.

(** X12.  The total of an invoice without items is 0.0, and an item added
    at the end adds its product to the total of the items before it: the
    total is the running binary64 sum in the order of the items. *)
Theorem total_price_runs_over_items (i1 i2 : Invoice) (item : InvoiceItem) :
  (invoice_items i1 = [] → calculate_total_price i1 = 0%float)
  ∧ (invoice_items i2 = (invoice_items i1 ++ [item])%list →
     calculate_total_price i2
     = (calculate_total_price i1 + unit_price item * quantity item)%float).
Proof.
  unfold calculate_total_price. split.
  - intros ->. reflexivity.
  - intros ->. rewrite total_price_append. reflexivity.
Qed.

Lemma total_price_runs_over_items_witness :
  calculate_total_price (blank 1)
  = (calculate_total_price no_items + 100 * 2)%float.
Proof.
  apply (proj2 (total_price_runs_over_items no_items (blank 1)
                  {| description := "Consulting"; quantity := 2%float;
                     unit_price := 100%float |})).
  reflexivity.
Defined.

Section ScriptProperties.

Variable float_str : float → string.
Variable textwrap_fill : string → Z → string.

Lemma print_invoice_lines (invoice : Invoice) :
  print_invoice float_str invoice
  = app ["Invoice"; "-------";
         "Customer Name: " ++ customer_name invoice;
         "Customer Address1: " ++ customer_address1 invoice;
         "Customer Address2: " ++ customer_address2 invoice;
         "Customer Business Number: " ++ customer_business_number invoice;
         "Invoice Number: " ++ Py.str (invoice_number invoice);
         "Invoice Currency: " ++ invoice_currency invoice;
         "Invoice Date: " ++ invoice_date invoice;
         "Invoice Items:"]
      (app (flat_map
              (fun item =>
                 [String "009" "Description: " ++ description item;
                  String "009" "Quantity: " ++ float_str (quantity item);
                  String "009" "Unit Price: " ++ float_str (unit_price item);
                  String "009" "Total Price: " ++ float_str (line_total item)])
              (invoice_items invoice))
           ["Invoice Total Price: "
              ++ float_str (sum_line_totals (invoice_items invoice));
            "-------"]).
Proof.
  unfold print_invoice.
  rewrite (fold_append_chunks
             (fun item =>
                [String "009" "Description: " ++ description item;
                 String "009" "Quantity: " ++ float_str (quantity item);
                 String "009" "Unit Price: " ++ float_str (unit_price item);
                 String "009" "Total Price: "
                   ++ float_str (unit_price item * quantity item)%float])).
  rewrite calculate_total_price_sum, <- List.app_assoc.
  f_equal. f_equal. apply flat_map_ext. intros item.
  rewrite script_line_total. reflexivity.
Qed.

Lemma length_flat_map_4 {A B : Type} (f : A → list B) (l : list A) :
  (∀ x, length (f x) = 4%nat) →
  length (flat_map f l) = (4 * length l)%nat.
Proof.
  intros H. induction l as [|x l IH]; simpl; [reflexivity|].
  rewrite length_app, H, IH. lia.
Qed.

(** X13.  An invoice without items still gives a line-items block: the
    header row followed at once by the total row, whose total is the
    conversion of 0.0. *)
Theorem items_data_without_items (invoice : Invoice) :
  invoice_items invoice = [] →
  items_data float_str textwrap_fill invoice
  = [[CStr "Description"; CStr "Quantity"; CStr "Unit Price"; CStr "Total Price"];
     [CStr ("Tot (" ++ invoice_currency invoice ++ "):"); CStr ""; CStr "";
      CStr (float_str 0%float ++ " " ++ invoice_currency invoice)]].
Proof.
  intros H. unfold items_data, calculate_total_price. rewrite H. reflexivity.
Qed.

(** X14.  Every row of the line-items block has four cells, one for each
    of the four column widths given to the table. *)
Theorem items_data_four_cells (invoice : Invoice) :
  Forall (fun row => length row = 4%nat)
         (items_data float_str textwrap_fill invoice).
Proof.
  rewrite items_data_rows. constructor; [reflexivity|].
  apply Forall_app. split.
  - apply List.Forall_forall. intros row (item & <- & _)%in_map_iff. reflexivity.
  - constructor; [reflexivity | constructor].
Qed.

(** X15.  The summary printed by [print_invoice] has twelve fixed lines
    and four lines per item; its seventh line carries the invoice number,
    each item has its line total printed, and its total line carries the
    same converted total as the total row of the document. *)
Theorem printed_summary (invoice : Invoice) :
  length (print_invoice float_str invoice)
  = (12 + 4 * length (invoice_items invoice))%nat
  ∧ print_invoice float_str invoice !! 6%nat
    = Some ("Invoice Number: " ++ Py.str (invoice_number invoice))
  ∧ (∀ item, In item (invoice_items invoice) →
       In (String "009" "Total Price: "
             ++ float_str (unit_price item * quantity item)%float)
          (print_invoice float_str invoice))
  ∧ ∃ total,
      print_invoice float_str invoice
        !! (10 + 4 * length (invoice_items invoice))%nat
      = Some ("Invoice Total Price: " ++ total)
      ∧ last (items_data float_str textwrap_fill invoice)
        = Some [CStr ("Tot (" ++ invoice_currency invoice ++ "):");
                CStr ""; CStr "";
                CStr (total ++ " " ++ invoice_currency invoice)].
Proof.
  rewrite print_invoice_lines.
  set (lines := fun item : InvoiceItem =>
         [String "009" "Description: " ++ description item;
          String "009" "Quantity: " ++ float_str (quantity item);
          String "009" "Unit Price: " ++ float_str (unit_price item);
          String "009" "Total Price: " ++ float_str (line_total item)]).
  assert (L : length (flat_map lines (invoice_items invoice))
              = (4 * length (invoice_items invoice))%nat)
    by (apply length_flat_map_4; reflexivity).
  split; [|split; [|split]].
  - rewrite !length_app, L. simpl. lia.
  - reflexivity.
  - intros item Hin. rewrite script_line_total.
    apply in_or_app. right. apply in_or_app. left.
    apply in_flat_map. exists item. split; [exact Hin|].
    simpl. auto.
  - exists (float_str (sum_line_totals (invoice_items invoice))). split.
    + rewrite lookup_app_r by (simpl; lia).
      rewrite lookup_app_r by (simpl; lia).
      rewrite L. simpl length.
      replace (10 + 4 * length (invoice_items invoice) - 10
               - 4 * length (invoice_items invoice))%nat with 0%nat by lia.
      reflexivity.
    + rewrite items_data_rows, app_comm_cons. apply last_snoc.
Qed.

Lemma elements_metadata (invoice : Invoice) (settings : Settings)
  (blocks : list flowable) :
  elements float_str textwrap_fill invoice settings = Ok blocks →
  ∃ widths style,
    blocks !! 2%nat
    = Some (Table [[CStr "Invoice Date:"; CStr (invoice_date invoice)];
                   [CStr "Invoice Number:"; CInt (invoice_number invoice)]]
                  widths None 0 style).
Proof.
  intros Hb.
  destruct (elements_built _ _ _ _ _ Hb) as (Hh & Hf & (instruction & H)).
  destruct (elements_known float_str textwrap_fill _ _ _ Hh Hf H)
    as (b1 & ds & ps & b3 & He).
  rewrite He in Hb. injection Hb as <-. simpl. eauto.
Qed.

Lemma main_of_output (r : run) :
  main float_str textwrap_fill r
  = match main_output float_str textwrap_fill r with
    | (printed, Ok built) => Ok (printed, built)
    | (_, Raise e) => Raise e
    end.
Proof.
  unfold main, main_output.
  destruct (negb (template_exists r)); [reflexivity|].
  destruct (read_settings _ _); run; [|reflexivity].
  destruct (read_template _ _ _ _ _); run; [|reflexivity].
  destruct (output_pdf _ _ _ _ _); reflexivity.
Qed.

(** X16.  [main] stops at the first failing step, in this order: missing
    template, missing output directory, failed construction (duplicate
    number or unreadable ledger entry), then whatever stops [output_pdf].
    Up to a failed construction nothing has been printed by
    [print_invoice] and nothing is built; once construction has succeeded
    the summary of the constructed record is printed whatever happens next,
    so a layout without header line or an unknown currency ends the run
    after the summary and without a document. *)
Theorem main_stops_in_order (r : run) :
  (template_exists r = false →
   main_output float_str textwrap_fill r
   = ([], Raise (TemplateNotFound (template_file r))))
  ∧ (template_exists r = true → directory_exists r = false →
     main_output float_str textwrap_fill r
     = ([], Raise (MissingOutputDirectory
                     (output_directory (loaded_settings r)))))
  ∧ (template_exists r = true → directory_exists r = true →
     ∀ e, __init__ (today r) (directory_listing r) (loaded_template r) = Raise e →
          main_output float_str textwrap_fill r = ([], Raise e))
  ∧ (template_exists r = true → directory_exists r = true →
     ∀ invoice,
       __init__ (today r) (directory_listing r) (loaded_template r) = Ok invoice →
       main_output float_str textwrap_fill r
       = (print_invoice float_str invoice,
          output_pdf float_str textwrap_fill true invoice (loaded_settings r))
       ∧ (invoice_header (loaded_settings r) = [] →
          main_output float_str textwrap_fill r
          = (print_invoice float_str invoice, Raise EmptyTable))
       ∧ (invoice_header (loaded_settings r) ≠ [] →
          payment_instructions (loaded_settings r)
            !! Py.lower (invoice_currency invoice) = None →
          main_output float_str textwrap_fill r
          = (print_invoice float_str invoice,
             Raise (UnknownCurrency (Py.lower (invoice_currency invoice))))))
  ∧ main float_str textwrap_fill r
    = match main_output float_str textwrap_fill r with
      | (printed, Ok built) => Ok (printed, built)
      | (_, Raise e) => Raise e
      end.
Proof.
  split; [|split; [|split; [|split]]]; [| | | |apply main_of_output];
    unfold main_output, read_settings, read_template.
  - intros ->. reflexivity.
  - intros -> ->. reflexivity.
  - intros -> -> e He. simpl. rewrite He. reflexivity.
  - intros -> -> invoice Hi. simpl. rewrite Hi.
    split; [reflexivity|]. split.
    + intros Hh. unfold output_pdf. simpl.
      rewrite (elements_no_header float_str textwrap_fill _ _ Hh). reflexivity.
    + intros Hh Hk. unfold output_pdf. simpl.
      rewrite (elements_unknown float_str textwrap_fill _ _ Hh Hk). reflexivity.
Qed.

(** X17.  When [main] succeeds, both files existed, the printed summary
    and the document are those of the record built by [__init__], and that
    record's number, which is not 0, is the one printed on the seventh
    line, shown in the metadata block and leading the file name. *)
Theorem main_success (r : run) (printed : list string) (built : document) :
  main float_str textwrap_fill r = Ok (printed, built) →
  template_exists r = true ∧ directory_exists r = true
  ∧ ∃ invoice,
      __init__ (today r) (directory_listing r) (loaded_template r) = Ok invoice
      ∧ invoice_number invoice ≠ 0
      ∧ printed = print_invoice float_str invoice
      ∧ printed !! 6%nat
        = Some ("Invoice Number: " ++ Py.str (invoice_number invoice))
      ∧ filename built
        = output_directory (loaded_settings r) ++ "/" ++ artifact_entry invoice
      ∧ leading_token (artifact_entry invoice)
        = Py.str (invoice_number invoice)
      ∧ ∃ widths style,
          story built !! 2%nat
          = Some (Table [[CStr "Invoice Date:"; CStr (invoice_date invoice)];
                         [CStr "Invoice Number:"; CInt (invoice_number invoice)]]
                        widths None 0 style).
Proof.
  unfold main, read_settings, read_template.
  destruct (template_exists r); simpl; [|intros [=]].
  destruct (directory_exists r) eqn:D; run; [|intros [=]].
  destruct (__init__ _ _ _) as [invoice|e] eqn:Hi; [|intros [=]].
  destruct (output_pdf _ _ _ _ _) as [d|e] eqn:Ho; [|intros [=]].
  intros [= <- <-].
  apply output_pdf_story in Ho as (_ & Hf & Hs).
  repeat split; auto. exists invoice.
  split; [reflexivity|]. split.
  { apply (constructed_numbers_nonzero _ _ _ _ Hi). }
  split; [reflexivity|]. split.
  { rewrite print_invoice_lines. reflexivity. }
  split; [rewrite Hf; apply pdf_file_name_entry|].
  split; [apply artifact_entry_token|].
  apply (elements_metadata _ _ _ Hs).
Qed.

End ScriptProperties.

(** X18.  With no number requested, construction on a ledger whose counted
    entries all have decimal leading tokens succeeds and assigns the
    largest counted leading number plus one (1 when nothing is counted);
    the only way it can fail is the [ValueError] of a counted entry whose
    leading token [int] rejects, and the duplicate test is never run on the
    assigned number. *)
Theorem pending_number_assigned (now : string) (listing : list string)
  (self : Invoice) :
  invoice_number self = 0 →
  (decimal_ledger listing →
   __init__ now listing self
   = Ok (set_invoice_number (max_existing listing + 1) (default_date now self)))
  ∧ (∀ e, __init__ now listing self = Raise e →
          ∃ file, In file listing ∧ counted file = true
                  ∧ Py.isdecimal (leading_token file) = false
                  ∧ e = ValueError (leading_token file)).
Proof.
  intros E. rewrite (init_pending _ _ _ E). split.
  - intros D. rewrite (get_next_invoice_number_decimal _ D). reflexivity.
  - intros e. destruct (get_next_invoice_number listing) as [m|e'] eqn:G;
      [intros [=]|].
    intros [= <-]. apply scan_failure in G. exact G.
Qed.

Lemma pending_number_assigned_witness :
  __init__ "01/02/2024" ["3_acme.pdf"; "1notes.txt"; "x_9.pdf"] (blank 0)
  = Ok (set_invoice_number
          (max_existing ["3_acme.pdf"; "1notes.txt"; "x_9.pdf"] + 1)
          (default_date "01/02/2024" (blank 0))).
Proof.
  apply (pending_number_assigned "01/02/2024"
           ["3_acme.pdf"; "1notes.txt"; "x_9.pdf"] (blank 0)).
  - reflexivity.
  - intros file [<-|[<-|[<-|[]]]]; intros H; solve [reflexivity | discriminate H].
Defined.

Lemma items_data_without_items_witness :
  items_data sample_float_str sample_textwrap_fill no_items
  = [[CStr "Description"; CStr "Quantity"; CStr "Unit Price"; CStr "Total Price"];
     [CStr ("Tot (" ++ invoice_currency no_items ++ "):"); CStr ""; CStr "";
      CStr (sample_float_str 0%float ++ " " ++ invoice_currency no_items)]].
Proof.
  apply (items_data_without_items sample_float_str sample_textwrap_fill no_items).
  reflexivity.
Defined.

Lemma main_success_witness :
  template_exists sample_run = true ∧ directory_exists sample_run = true
  ∧ ∃ invoice,
      __init__ (today sample_run) (directory_listing sample_run)
        (loaded_template sample_run) = Ok invoice
      ∧ invoice_number invoice ≠ 0
      ∧ print_invoice sample_float_str (blank 4)
        = print_invoice sample_float_str invoice
      ∧ print_invoice sample_float_str (blank 4) !! 6%nat
        = Some ("Invoice Number: " ++ Py.str (invoice_number invoice))
      ∧ filename (built_for (blank 4))
        = output_directory (loaded_settings sample_run) ++ "/"
          ++ artifact_entry invoice
      ∧ leading_token (artifact_entry invoice)
        = Py.str (invoice_number invoice)
      ∧ ∃ widths style,
          story (built_for (blank 4)) !! 2%nat
          = Some (Table [[CStr "Invoice Date:"; CStr (invoice_date invoice)];
                         [CStr "Invoice Number:"; CInt (invoice_number invoice)]]
                        widths None 0 style).
Proof.
  apply (main_success sample_float_str sample_textwrap_fill sample_run
           (print_invoice sample_float_str (blank 4)) (built_for (blank 4))).
  reflexivity.
Defined.
